(** * Webvizio MCP server: transport adapter and tool dispatcher

    A shallow embedding of [src/webvizio-client.ts] (the transport adapter)
    and [src/server.ts] (the tool registry and its handlers), with the
    properties of the specification stated and settled against it.

    Modelling conventions.
    - JavaScript values are the type [JsVal]: the values [JSON.parse] can
      produce, plus [undefined].  A number is given by a decimal literal and
      stands for the double nearest to it, and it is printed as
      [Number::toString] of ECMA-262 prints that double; strings are
      sequences of code units below 256; an object is the list of its own
      properties in enumeration order, with distinct keys.
    - What is thrown is a [Thrown]: a plain value of type [JsVal] (the
      object literal of an [McpError]) or an instance of [Error] whose
      message is a string.  This covers what the adapter of this program
      throws; values with functions, symbols or accessors are outside it.
      The tests of the program on a thrown value ([in], [instanceof],
      truthiness) are modelled as JavaScript evaluates them, the
      conversion of a template substitution to a string included.
    - An [await] on the HTTP layer is a node of the program tree [Prog]; the
      remote side is a [World] that gives each call its outcome.  No
      operation makes the same call twice, so a function of the request
      configuration is enough.  Running a program yields the calls it made
      to axios, in order, each with the configuration the program gave it
      (headers that axios adds by itself are not part of it), and the
      settlement of its promise.  A call is listed whatever its outcome,
      also when the HTTP layer fails before anything is sent.  The 30
      second timeout of the instance shows as a failure with a request and
      without a response.
    - [console.error] / [console.log] lines only write diagnostics and are
      left out. *)

From Stdlib Require Import ZArith NArith List String Ascii Bool Lia.
From Stdlib.Strings Require Import Byte.
From Stdlib Require Import DecimalString.
Import ListNotations.
Open Scope string_scope.
Set Warnings "-register-all".

(* ===================================================================== *)
(** ** JavaScript values *)
(* ===================================================================== *)

Module Js.

(** Characters that a Rocq string literal cannot hold directly. *)
Definition nl : string := String "010"%char EmptyString.
Definition dquote : string := String "034"%char EmptyString.

(** The decimal digits of an integer, with a minus sign if negative. *)
Definition show_Z (n : Z) : string := NilZero.string_of_int (Z.to_int n).
Definition show_nat (n : nat) : string := show_Z (Z.of_nat n).

(** *** Numbers *)

(** A number as JSON writes it: the integer [significand] scaled by ten to
    the [exponent].  It stands for the double nearest to that value, ties
    to even, which is what [JSON.parse] makes of the literal:
    [decimal 15 (-1)] is 1.5, and an integer [n] is [decimal n 0].  Several
    literals can stand for one double. *)
Record Number := decimal { significand : Z; exponent : Z }.
Bind Scope Z_scope with Number.

Definition of_Z (n : Z) : Number := decimal n 0.
Coercion of_Z : Z >-> Number.

(** Doubles without their sign, and [Number::toString] (ECMA-262,
    6.1.6.1.20) on them. *)
Module Double.

Local Open Scope Z_scope.

(** Zero, [m] times 2 to the [e] with [m] below 2^53 (and at least 2^52
    unless [e] is -1074, the subnormal range), or infinity. *)
Inductive t := Zero | Finite (m e : Z) | Infinite.

Definition eqb (a b : t) : bool :=
  match a, b with
  | Zero, Zero | Infinite, Infinite => true
  | Finite m e, Finite m' e' => (m =? m') && (e =? e')
  | _, _ => false
  end.

(** The fraction [p / (q * 2^e)]. *)
Definition over_pow2 (p q e : Z) : Z * Z :=
  if 0 <=? e then (p, q * 2 ^ e) else (p * 2 ^ (- e), q).

(** The fraction [s * 10^j]. *)
Definition times_pow10 (s j : Z) : Z * Z :=
  if 0 <=? j then (s * 10 ^ j, 1) else (s, 10 ^ (- j)).

(** The double nearest to [p / q], ties to even, for [p >= 0] and [q > 0]:
    the binary exponent [e] is the one that leaves 53 bits before the
    point, and not less than -1074. *)
Definition nearest (p q : Z) : t :=
  if p =? 0 then Zero
  else
    let e1 := Z.log2 p - Z.log2 q - 52 in
    let '(a1, b1) := over_pow2 p q e1 in
    let e := Z.max (if 2 ^ 52 <=? a1 / b1 then e1 else e1 - 1) (-1074) in
    let '(a, b) := over_pow2 p q e in
    let m := a / b in
    let r := a mod b in
    let m := if (b <? 2 * r) || ((2 * r =? b) && Z.odd m) then m + 1 else m in
    let '(m, e) := if m =? 2 ^ 53 then (2 ^ 52, e + 1) else (m, e) in
    if m =? 0 then Zero else if 971 <? e then Infinite else Finite m e.

Definition below_pow10 (p q n : Z) : bool :=
  if 0 <=? n then p <? q * 10 ^ n else p * 10 ^ (- n) <? q.

(** The [n] with [10^(n-1) <= p / q < 10^n], found near its estimate from
    the binary logarithms. *)
Definition order (p q : Z) : Z :=
  let g := (Z.log2 p - Z.log2 q) * 30103 / 100000 in
  match find (below_pow10 p q) [g - 2; g - 1; g; g + 1; g + 2; g + 3] with
  | Some n => n
  | None => g + 4
  end.

(** The [k]-digit integer [s] for which [s * 10^(n-k)] reads back as the
    double [m * 2^e], which is [vp / vq]: the candidates are the two
    [k]-digit values around the double; of two that read back the closer
    one is taken, and the even one if they are equally close. *)
Definition digits_of_length (m e vp vq n k : Z) : option (Z * Z * Z) :=
  let j := n - k in
  let lo := if 0 <=? j then vp / (vq * 10 ^ j) else (vp * 10 ^ (- j)) / vq in
  let hi := lo + 1 in
  let reads_back s :=
    let '(cp, cq) := times_pow10 s j in eqb (nearest cp cq) (Finite m e) in
  let found s :=
    if s =? 10 ^ k then Some (n + 1, k, 10 ^ (k - 1)) else Some (n, k, s) in
  match reads_back lo, reads_back hi with
  | true, true =>
      let '(cp, cq) := times_pow10 (2 * lo + 1) j in
      let l := 2 * vp * cq in
      let r := cp * vq in
      found (if l <? r then lo else if r <? l then hi
             else if Z.even lo then lo else hi)
  | true, false => found lo
  | false, true => found hi
  | false, false => None
  end.

(** The integers [n], [k], [s] of [Number::toString]: [k] as small as
    possible (17 digits always suffice). *)
Definition shortest (m e : Z) : option (Z * Z * Z) :=
  let '(vp, vq) := over_pow2 m 1 (- e) in
  let n := order vp vq in
  (fix first (ks : list Z) : option (Z * Z * Z) :=
     match ks with
     | [] => None
     | k :: rest =>
         match digits_of_length m e vp vq n k with
         | Some d => Some d
         | None => first rest
         end
     end) [1; 2; 3; 4; 5; 6; 7; 8; 9; 10; 11; 12; 13; 14; 15; 16; 17].

Definition zeros (n : Z) : string :=
  string_of_list_ascii (repeat "0"%char (Z.to_nat n)).

(** The notation chosen by [n]: digits and zeros, a decimal point inside
    or after "0.", or the exponent form. *)
Definition notation (n k s : Z) : string :=
  let ds := show_Z s in
  if (k <=? n) && (n <=? 21) then ds ++ zeros (n - k)
  else if (0 <? n) && (n <=? 21) then
    substring 0 (Z.to_nat n) ds ++ "." ++
    substring (Z.to_nat n) (Z.to_nat (k - n)) ds
  else if (-6 <? n) && (n <=? 0) then "0." ++ zeros (- n) ++ ds
  else
    (if k =? 1 then ds
     else substring 0 1 ds ++ "." ++ substring 1 (Z.to_nat (k - 1)) ds) ++
    "e" ++ (if 0 <=? n - 1 then "+" else "-") ++ show_Z (Z.abs (n - 1)).

End Double.

(** The double a number stands for, without its sign. *)
Definition magnitude_of (x : Number) : Double.t :=
  let '(p, q) := Double.times_pow10 (Z.abs (significand x)) (exponent x) in
  Double.nearest p q.

(** An integer literal of at most 2^53 in absolute value. *)
Definition is_safe_integer (x : Number) : bool :=
  (exponent x =? 0)%Z && (Z.abs (significand x) <=? 9007199254740992)%Z.

Definition general_toString (x : Number) : string :=
  match magnitude_of x with
  | Double.Zero => "0"
  | Double.Infinite => if (significand x <? 0)%Z then "-Infinity" else "Infinity"
  | Double.Finite m e =>
      (if (significand x <? 0)%Z then "-" else "") ++
      match Double.shortest m e with
      | Some (n, k, s) => Double.notation n k s
      | None => ""
      end
  end.

(** [Number::toString].  An integer up to 2^53 is a double, and its
    shortest digits are its own: [String(401) = "401"], [String(-1) = "-1"].
    Beyond that, [String(1e21) = "1e+21"] and
    [String(2 ** 60) = "1152921504606847000"]. *)
Definition Number_toString (x : Number) : string :=
  if is_safe_integer x then show_Z (significand x) else general_toString x.

(** [x === 0]: the literal is zero, or too small for a double. *)
Definition Number_is_zero (x : Number) : bool :=
  if (significand x =? 0)%Z then true
  else if (0 <=? exponent x)%Z then false
  else match magnitude_of x with Double.Zero => true | _ => false end.

(** [Number.isFinite(x)]: a literal can be too large for a double. *)
Definition Number_is_finite (x : Number) : bool :=
  is_safe_integer x ||
  match magnitude_of x with Double.Infinite => false | _ => true end.

(** *** Values *)

Inductive JsVal : Type :=
| JUndefined
| JNull
| JBool (b : bool)
| JNum (n : Number)
| JStr (s : string)
| JArr (items : list JsVal)
| JObj (props : list (string * JsVal)).

(** [ToBoolean]. *)
Definition truthy (v : JsVal) : bool :=
  match v with
  | JUndefined | JNull => false
  | JBool b => b
  | JNum n => negb (Number_is_zero n)
  | JStr s => negb (String.eqb s "")
  | JArr _ | JObj _ => true
  end.

(** [typeof v === 'object'] and [typeof v === 'boolean']. *)
Definition typeof_object (v : JsVal) : bool :=
  match v with
  | JNull | JArr _ | JObj _ => true
  | _ => false
  end.

Definition typeof_boolean (v : JsVal) : bool :=
  match v with
  | JBool _ => true
  | _ => false
  end.

(** [a || b] *)
Definition js_or (a b : JsVal) : JsVal := if truthy a then a else b.

Fixpoint lookup (k : string) (props : list (string * JsVal)) : option JsVal :=
  match props with
  | [] => None
  | (k', v) :: rest => if String.eqb k k' then Some v else lookup k rest
  end.

Definition has_key (k : string) (props : list (string * JsVal)) : bool :=
  match lookup k props with
  | Some _ => true
  | None => false
  end.

(** The array index named by a property key, if any, below [len]. *)
Definition index_of_key (k : string) (len : nat) : option nat :=
  find (fun i => String.eqb (show_nat i) k) (seq 0 len).

Fixpoint chars (s : string) : list ascii :=
  match s with
  | EmptyString => []
  | String c rest => c :: chars rest
  end.

(** [v[k]] for a value [v] that is neither [null] nor [undefined], for the
    keys the program reads: own properties, the [length] and the elements
    of arrays and strings (none of those keys is inherited otherwise). *)
Definition get_prop (v : JsVal) (k : string) : JsVal :=
  match v with
  | JObj props =>
      match lookup k props with
      | Some x => x
      | None => JUndefined
      end
  | JArr items =>
      if String.eqb k "length" then JNum (Z.of_nat (List.length items))
      else match index_of_key k (List.length items) with
           | Some i => nth i items JUndefined
           | None => JUndefined
           end
  | JStr s =>
      if String.eqb k "length" then JNum (Z.of_nat (String.length s))
      else match index_of_key k (String.length s) with
           | Some i =>
               match nth_error (chars s) i with
               | Some c => JStr (String c EmptyString)
               | None => JUndefined
               end
           | None => JUndefined
           end
  | _ => JUndefined
  end.

Definition nullish (v : JsVal) : bool :=
  match v with
  | JUndefined | JNull => true
  | _ => false
  end.

(** [v?.k] *)
Definition opt_chain (v : JsVal) (k : string) : JsVal :=
  if nullish v then JUndefined else get_prop v k.

(** ['k' in v] for a value of type object that is not [null]. *)
Definition js_in (k : string) (v : JsVal) : bool :=
  match v with
  | JObj props => has_key k props
  | JArr items =>
      String.eqb k "length" ||
      match index_of_key k (List.length items) with
      | Some _ => true
      | None => false
      end
  | _ => false
  end.

(** [v === s] for a string literal [s]. *)
Definition strict_eq_str (v : JsVal) (s : string) : bool :=
  match v with
  | JStr s' => String.eqb s' s
  | _ => false
  end.

Fixpoint join (sep : string) (l : list string) : string :=
  match l with
  | [] => ""
  | [x] => x
  | x :: rest => x ++ sep ++ join sep rest
  end.

(** [ToString], as a template literal applies it to a substitution.
    [None] stands for the [TypeError] of an object without primitive
    conversion: a parsed object whose own [toString] property (never
    callable) shadows [Object.prototype.toString].  An array converts
    through [join], where [null] and [undefined] elements are empty. *)
Fixpoint to_string (v : JsVal) : option string :=
  match v with
  | JUndefined => Some "undefined"
  | JNull => Some "null"
  | JBool b => Some (if b then "true" else "false")
  | JNum n => Some (Number_toString n)
  | JStr s => Some s
  | JArr items =>
      option_map (join ",")
        ((fix each (l : list JsVal) : option (list string) :=
            match l with
            | [] => Some []
            | x :: rest =>
                match (if nullish x then Some "" else to_string x), each rest with
                | Some s, Some ss => Some (s :: ss)
                | _, _ => None
                end
            end) items)
  | JObj props =>
      if has_key "toString" props then None else Some "[object Object]"
  end.

(** *** JSON.stringify(v, null, 2) *)

Definition hex_digit (n : nat) : ascii :=
  match nth_error (chars "0123456789abcdef") n with
  | Some c => c
  | None => "0"%char
  end.

Definition escape_char (c : ascii) : string :=
  let n := nat_of_ascii c in
  if Nat.eqb n 8 then "\b"
  else if Nat.eqb n 9 then "\t"
  else if Nat.eqb n 10 then "\n"
  else if Nat.eqb n 12 then "\f"
  else if Nat.eqb n 13 then "\r"
  else if Nat.eqb n 34 then "\" ++ dquote
  else if Nat.eqb n 92 then "\\"
  else if Nat.ltb n 32 then
    "\u00" ++ String (hex_digit (n / 16)) (String (hex_digit (n mod 16)) "")
  else String c "".

Fixpoint escape (s : string) : string :=
  match s with
  | EmptyString => ""
  | String c rest => escape_char c ++ escape rest
  end.

Definition quote (s : string) : string := dquote ++ escape s ++ dquote.

(** Serialisation at indentation [ind] with a gap of two spaces; [None] is
    the [undefined] that [JSON.stringify] yields for [undefined].  In an
    array [undefined] prints as [null]; in an object the property is
    skipped.  A number that is not finite prints as [null]. *)
Fixpoint stringify_at (ind : string) (v : JsVal) : option string :=
  match v with
  | JUndefined => None
  | JNull => Some "null"
  | JBool b => Some (if b then "true" else "false")
  | JNum n => Some (if Number_is_finite n then Number_toString n else "null")
  | JStr s => Some (quote s)
  | JArr items =>
      let ind' := ind ++ "  " in
      let parts :=
        (fix each (l : list JsVal) : list string :=
           match l with
           | [] => []
           | x :: rest =>
               match stringify_at ind' x with
               | Some s => s
               | None => "null"
               end :: each rest
           end) items in
      match parts with
      | [] => Some "[]"
      | _ => Some ("[" ++ nl ++ ind' ++ join ("," ++ nl ++ ind') parts
                       ++ nl ++ ind ++ "]")
      end
  | JObj props =>
      let ind' := ind ++ "  " in
      let parts :=
        (fix each (l : list (string * JsVal)) : list string :=
           match l with
           | [] => []
           | (k, x) :: rest =>
               match stringify_at ind' x with
               | Some s => (quote k ++ ": " ++ s) :: each rest
               | None => each rest
               end
           end) props in
      match parts with
      | [] => Some "{}"
      | _ => Some ("{" ++ nl ++ ind' ++ join ("," ++ nl ++ ind') parts
                       ++ nl ++ ind ++ "}")
      end
  end.

(** [`${JSON.stringify(v, null, 2)}`] *)
Definition JSON_stringify (v : JsVal) : string :=
  match stringify_at "" v with
  | Some s => s
  | None => "undefined"
  end.

End Js.
Import Js.

(* ===================================================================== *)
(** ** Base64, as [Buffer.prototype.toString('base64')] produces it *)
(* ===================================================================== *)

Module Base64.

Definition alphabet : string :=
  "ABCDEFGHIJKLMNOPQRSTUVWXYZabcdefghijklmnopqrstuvwxyz0123456789+/".

Definition pad : ascii := "="%char.

(** The character of a six-bit group. *)
Definition digit (n : N) : ascii := nth (N.to_nat n) (chars alphabet) pad.

(** The six-bit group of a character of the alphabet. *)
Definition value (c : ascii) : option N :=
  let n := N_of_ascii c in
  if (65 <=? n)%N && (n <=? 90)%N then Some (n - 65)%N
  else if (97 <=? n)%N && (n <=? 122)%N then Some (n - 71)%N
  else if (48 <=? n)%N && (n <=? 57)%N then Some (n + 4)%N
  else if (n =? 43)%N then Some 62%N
  else if (n =? 47)%N then Some 63%N
  else None.

Definition byte_of_N (n : N) : byte :=
  match Byte.of_N n with
  | Some b => b
  | None => x00
  end.

(** The 24-bit group of up to three bytes, high byte first. *)
Definition group (a b c : byte) : N :=
  (Byte.to_N a * 65536 + Byte.to_N b * 256 + Byte.to_N c)%N.

Definition digit_at (g : N) (i : N) : ascii :=
  digit ((g / 64 ^ (3 - i)) mod 64)%N.

Fixpoint encode (bs : list byte) : string :=
  match bs with
  | [] => ""
  | [a] =>
      let g := group a x00 x00 in
      String (digit_at g 0) (String (digit_at g 1) (String pad (String pad "")))
  | [a; b] =>
      let g := group a b x00 in
      String (digit_at g 0) (String (digit_at g 1)
        (String (digit_at g 2) (String pad "")))
  | a :: b :: c :: rest =>
      let g := group a b c in
      String (digit_at g 0) (String (digit_at g 1)
        (String (digit_at g 2) (String (digit_at g 3) (encode rest))))
  end.

Definition ungroup (s0 s1 s2 s3 : N) : N :=
  (((s0 * 64 + s1) * 64 + s2) * 64 + s3)%N.

Definition byte_at (g : N) (i : N) : byte :=
  byte_of_N ((g / 256 ^ (2 - i)) mod 256)%N.

(** The decoder the round trip is measured against: four characters at a
    time, padding accepted in the last group only. *)
Fixpoint decode (s : string) : option (list byte) :=
  match s with
  | EmptyString => Some []
  | String c0 (String c1 (String c2 (String c3 rest))) =>
      if Ascii.eqb c3 pad then
        match rest with
        | EmptyString =>
            if Ascii.eqb c2 pad then
              match value c0, value c1 with
              | Some s0, Some s1 =>
                  Some [byte_at (ungroup s0 s1 0 0) 0]
              | _, _ => None
              end
            else
              match value c0, value c1, value c2 with
              | Some s0, Some s1, Some s2 =>
                  let g := ungroup s0 s1 s2 0 in
                  Some [byte_at g 0; byte_at g 1]
              | _, _, _ => None
              end
        | _ => None
        end
      else
        match value c0, value c1, value c2, value c3, decode rest with
        | Some s0, Some s1, Some s2, Some s3, Some bs =>
            let g := ungroup s0 s1 s2 s3 in
            Some (byte_at g 0 :: byte_at g 1 :: byte_at g 2 :: bs)
        | _, _, _, _, _ => None
        end
  | _ => None
  end.

End Base64.

(** [Buffer.from(data, 'binary')] on the [Buffer] that axios returns for
    [responseType: 'arraybuffer'] copies its bytes. *)
Definition Buffer_from (data : list byte) : list byte := data.

Definition toString_base64 (buf : list byte) : string := Base64.encode buf.

(* ===================================================================== *)
(** ** The HTTP layer and asynchronous programs *)
(* ===================================================================== *)

Inductive Method := GET | POST.

Inductive ResponseType := json | arraybuffer.

(** An axios request configuration, as far as this program sets it. *)
Record HttpRequest := {
  req_method : Method;
  req_baseURL : option string;
  req_url : JsVal;
  req_headers : list (string * string);
  req_timeout : option Z;
  req_responseType : ResponseType;
  req_data : option JsVal
}.

Record AxiosResponse (D : Type) := {
  status : Z;
  statusText : string;
  data : D
}.
Arguments status {D} _.
Arguments statusText {D} _.
Arguments data {D} _.

(** The fields of an [AxiosError] that the program reads: [response] is
    present when the server answered, [request] when a request was
    dispatched; [code] is the string tag axios attaches (it may be absent). *)
Record AxiosError := {
  response : option (AxiosResponse JsVal);
  request : bool;
  message : string;
  code : option string
}.

Inductive AxiosOutcome (D : Type) :=
| Answered (r : AxiosResponse D)
| Failed (e : AxiosError).
Arguments Answered {D} _.
Arguments Failed {D} _.

(** An instance of [Error] ([new Error(msg)], a [TypeError], an
    [AxiosError] that reaches a handler unconverted). *)
Record JsError := {
  error_name : string;
  error_message : string;
  error_code : option string
}.

(** What a [throw] or a rejected promise carries: a plain value, or an
    instance of [Error].  Thrown values with functions, symbols or
    accessors (a [message] whose conversion runs code) are not covered. *)
Inductive Thrown :=
| ThrownValue (v : JsVal)
| ThrownError (e : JsError).

Definition new_Error (msg : string) : Thrown :=
  ThrownError {| error_name := "Error"; error_message := msg; error_code := None |}.

Definition new_TypeError (msg : string) : Thrown :=
  ThrownError {| error_name := "TypeError"; error_message := msg; error_code := None |}.

(** An asynchronous computation: it returns, throws, or awaits one HTTP
    exchange and continues with its outcome.  [Request] is an exchange with
    a JSON body, [Download] one with [responseType: 'arraybuffer']. *)
Inductive Prog (A : Type) : Type :=
| Ret (a : A)
| Throw (e : Thrown)
| Request (r : HttpRequest) (k : AxiosOutcome JsVal -> Prog A)
| Download (r : HttpRequest) (k : AxiosOutcome (list byte) -> Prog A).
Arguments Ret {A} _.
Arguments Throw {A} _.
Arguments Request {A} _ _.
Arguments Download {A} _ _.

Fixpoint bind {A B : Type} (p : Prog A) (f : A -> Prog B) : Prog B :=
  match p with
  | Ret a => f a
  | Throw e => Throw e
  | Request r k => Request r (fun o => bind (k o) f)
  | Download r k => Download r (fun o => bind (k o) f)
  end.

(** [try { p } catch (error) { h error }] *)
Fixpoint try_catch {A : Type} (p : Prog A) (h : Thrown -> Prog A) : Prog A :=
  match p with
  | Ret a => Ret a
  | Throw e => h e
  | Request r k => Request r (fun o => try_catch (k o) h)
  | Download r k => Download r (fun o => try_catch (k o) h)
  end.

Declare Scope prog_scope.
Delimit Scope prog_scope with prog.
Notation "x <- p ;; q" := (bind p (fun x => q))
  (at level 61, p at next level, right associativity) : prog_scope.
Notation "'when' c 'throw' e ;; q" := (if c then Throw e else q)
  (at level 61, c at next level, e at next level, right associativity) : prog_scope.
Open Scope prog_scope.

(** The remote side: what the HTTP layer yields for each request. *)
Record World := {
  api : HttpRequest -> AxiosOutcome JsVal;
  fetch : HttpRequest -> AxiosOutcome (list byte)
}.

(** How a promise settles. *)
Inductive Settled (A : Type) :=
| Resolved (a : A)
| Rejected (e : Thrown).
Arguments Resolved {A} _.
Arguments Rejected {A} _.

(** Runs a program against a world: the requests dispatched, in order, and
    the settlement. *)
Fixpoint run {A : Type} (w : World) (p : Prog A) : list HttpRequest * Settled A :=
  match p with
  | Ret a => ([], Resolved a)
  | Throw e => ([], Rejected e)
  | Request r k => let (t, s) := run w (k (api w r)) in (r :: t, s)
  | Download r k => let (t, s) := run w (k (fetch w r)) in (r :: t, s)
  end.

(** [`${v}`]: the conversion of a template substitution, which throws for
    a value without primitive conversion (V8 wording of the message). *)
Definition ToString (v : JsVal) : Prog string :=
  match to_string v with
  | Some s => Ret s
  | None => Throw (new_TypeError "Cannot convert object to primitive value")
  end.

(** [v.k]: reading a property of [null] or [undefined] throws. *)
Definition member (v : JsVal) (k : string) : Prog JsVal :=
  match v with
  | JUndefined =>
      Throw (new_TypeError ("Cannot read properties of undefined (reading '" ++ k ++ "')"))
  | JNull =>
      Throw (new_TypeError ("Cannot read properties of null (reading '" ++ k ++ "')"))
  | _ => Ret (get_prop v k)
  end.

(** Reading a property of a thrown value that is an object, and the [in]
    test on it. *)
Definition thrown_prop (t : Thrown) (k : string) : JsVal :=
  match t with
  | ThrownValue v => get_prop v k
  | ThrownError e =>
      if String.eqb k "message" then JStr (error_message e)
      else if String.eqb k "name" then JStr (error_name e)
      else if String.eqb k "code" then
        match error_code e with
        | Some c => JStr c
        | None => JUndefined
        end
      else JUndefined
  end.

Definition thrown_in (k : string) (t : Thrown) : bool :=
  match t with
  | ThrownValue v => js_in k v
  | ThrownError e =>
      String.eqb k "message" || String.eqb k "name" ||
      (String.eqb k "code" && match error_code e with Some _ => true | None => false end)
  end.

Definition thrown_truthy (t : Thrown) : bool :=
  match t with
  | ThrownValue v => truthy v
  | ThrownError _ => true
  end.

Definition thrown_typeof_object (t : Thrown) : bool :=
  match t with
  | ThrownValue v => typeof_object v
  | ThrownError _ => true
  end.

(** [error instanceof Error] *)
Definition instanceof_Error (t : Thrown) : bool :=
  match t with
  | ThrownValue _ => false
  | ThrownError _ => true
  end.

(* ===================================================================== *)
(** ** src/types.ts and src/config.ts *)
(* ===================================================================== *)

Record WebvizioConfig := {
  apiKey : string;
  baseUrl : string
}.

Record WebvizioSetProjectRequest := { set_uuid : string }.
Record WebvizioGetTaskRequest := { task_uuid : string }.

(** The object literal [{ code, message, details }] of an [McpError]. *)
Definition McpError (code : Z) (message details : JsVal) : JsVal :=
  JObj [("code", JNum code); ("message", message); ("details", details)].

(* ===================================================================== *)
(** ** src/webvizio-client.ts *)
(* ===================================================================== *)

Module WebvizioClient.

(** [handleApiError]: converts the error of the HTTP layer to an
    [McpError]. *)
Definition handleApiError (error : AxiosError) : JsVal :=
  match response error with
  | Some resp =>
      let status := status resp in
      let data := data resp in
      if (status =? 401)%Z then
        McpError 401 (JStr "Unauthorized: Invalid or missing API key") data
      else if (status =? 403)%Z then
        McpError 403 (JStr "Forbidden: Access denied") data
      else if (status =? 404)%Z then
        McpError 404 (JStr "Not Found: Resource not found") data
      else if (status =? 429)%Z then
        McpError 429 (JStr "Rate Limit Exceeded: Too many requests") data
      else if (status =? 500)%Z then
        McpError 500 (JStr "Internal Server Error: Webvizio API error") data
      else
        McpError status
          (js_or (opt_chain data "message")
             (js_or (opt_chain data "error")
                (JStr ("HTTP " ++ Number_toString status ++ ": " ++
                       statusText resp))))
          data
  | None =>
      if request error then
        McpError 0 (JStr "Network Error: Unable to reach Webvizio API")
          (JObj [("originalError", JStr (message error))])
      else
        McpError (-1) (JStr ("Request Error: " ++ message error))
          (JObj [("originalError", JStr (message error))])
  end.

(** [isMcpError] *)
Definition isMcpError (error : Thrown) : bool :=
  thrown_truthy error && thrown_typeof_object error &&
  thrown_in "code" error && thrown_in "message" error.

Section Instance.

Variable config : WebvizioConfig.

(** The request configuration of the instance made by [axios.create]. *)
Definition instance_request (m : Method) (url : string) (body : option JsVal)
  : HttpRequest :=
  {| req_method := m;
     req_baseURL := Some (baseUrl config);
     req_url := JStr url;
     req_headers := [("Authorization", "Bearer " ++ apiKey config);
                     ("Content-Type", "application/json");
                     ("Accept", "application/json")];
     req_timeout := Some 30000%Z;
     req_responseType := json;
     req_data := body |}.

(** A call through the instance: the response interceptor passes a
    response on and rejects with [handleApiError] of an error. *)
Definition client_call (m : Method) (url : string) (body : option JsVal)
  : Prog (AxiosResponse JsVal) :=
  Request (instance_request m url body)
    (fun o => match o with
              | Answered resp => Ret resp
              | Failed error => Throw (ThrownValue (handleApiError error))
              end).

Definition client_get (url : string) : Prog (AxiosResponse JsVal) :=
  client_call GET url None.

Definition client_post (url : string) (body : option JsVal)
  : Prog (AxiosResponse JsVal) :=
  client_call POST url body.

(** The request of the global [axios.get(url, { responseType: 'arraybuffer' })]:
    no base URL, no headers of this program, no timeout. *)
Definition plain_request (url : JsVal) : HttpRequest :=
  {| req_method := GET;
     req_baseURL := None;
     req_url := url;
     req_headers := [];
     req_timeout := None;
     req_responseType := arraybuffer;
     req_data := None |}.

Definition AxiosError_thrown (e : AxiosError) : Thrown :=
  ThrownError {| error_name := "AxiosError";
                 error_message := message e;
                 error_code := code e |}.

Definition axios_get_arraybuffer (url : JsVal) : Prog (AxiosResponse (list byte)) :=
  Download (plain_request url)
    (fun o => match o with
              | Answered resp => Ret resp
              | Failed error => Throw (AxiosError_thrown error)
              end).

(** [catch (error) { console.error(...); throw error; }] *)
Definition log_and_rethrow {A : Type} (p : Prog A) : Prog A :=
  try_catch p (fun error => Throw error).

Definition getProjects : Prog JsVal :=
  log_and_rethrow (
    response <- client_get "/projects" ;;
    if negb (truthy (data response)) then
      e <- member (data response) "error" ;;
      msg <- ToString (js_or e (JStr "Failed to fetch projects")) ;;
      Throw (new_Error msg)
    else Ret (data response)).

Definition getCurrentProject : Prog JsVal :=
  log_and_rethrow (
    response <- client_get "/current-project" ;;
    when negb (truthy (data response))
      throw new_Error "Failed to fetch current project" ;;
    Ret (data response)).

Definition setProject (request : WebvizioSetProjectRequest) : Prog JsVal :=
  log_and_rethrow (
    response <- client_post "/set-project"
                  (Some (JObj [("uuid", JStr (set_uuid request))])) ;;
    when negb (truthy (data response))
      throw new_Error "Failed to set project" ;;
    Ret (data response)).

Definition getTaskPrompt (request : WebvizioGetTaskRequest) : Prog JsVal :=
  log_and_rethrow (
    response <- client_get ("/task/" ++ task_uuid request ++ "/prompt") ;;
    when negb (truthy (opt_chain (data response) "prompt"))
      throw new_Error "Failed to get task prompt" ;;
    Ret (get_prop (data response) "prompt")).

Definition getTaskDescription (request : WebvizioGetTaskRequest) : Prog JsVal :=
  log_and_rethrow (
    response <- client_get ("/task/" ++ task_uuid request) ;;
    when negb (truthy (opt_chain (data response) "description"))
      throw new_Error "Failed to get task description" ;;
    Ret (get_prop (data response) "description")).

Definition getTaskConsoleLogs (request : WebvizioGetTaskRequest) : Prog JsVal :=
  log_and_rethrow (
    response <- client_get ("/task/" ++ task_uuid request ++ "/console-logs") ;;
    when negb (truthy (opt_chain (data response) "prompt"))
      throw new_Error "Failed to get console logs prompt" ;;
    Ret (get_prop (data response) "prompt")).

Definition getTaskNetworkLogs (request : WebvizioGetTaskRequest) : Prog JsVal :=
  log_and_rethrow (
    response <- client_get ("/task/" ++ task_uuid request ++ "/network-logs") ;;
    when negb (truthy (opt_chain (data response) "prompt"))
      throw new_Error "Failed to get network logs prompt" ;;
    Ret (get_prop (data response) "prompt")).

Definition getTaskActionLogs (request : WebvizioGetTaskRequest) : Prog JsVal :=
  log_and_rethrow (
    response <- client_get ("/task/" ++ task_uuid request ++ "/action-logs") ;;
    when negb (truthy (opt_chain (data response) "prompt"))
      throw new_Error "Failed to get action logs prompt" ;;
    Ret (get_prop (data response) "prompt")).

Definition getTaskErrorLogs (request : WebvizioGetTaskRequest) : Prog JsVal :=
  log_and_rethrow (
    response <- client_get ("/task/" ++ task_uuid request ++ "/error-logs") ;;
    when negb (truthy (opt_chain (data response) "prompt"))
      throw new_Error "Failed to get error logs prompt" ;;
    Ret (get_prop (data response) "prompt")).

Definition getTaskScreenshot (request : WebvizioGetTaskRequest) : Prog JsVal :=
  log_and_rethrow (
    response <- client_get ("/task/" ++ task_uuid request ++ "/screenshot") ;;
    when negb (truthy (opt_chain (data response) "screenshot"))
      throw new_Error "Failed to get task screenshot" ;;
    imageResponse <- axios_get_arraybuffer (get_prop (data response) "screenshot") ;;
    let base64Image := toString_base64 (Buffer_from (data imageResponse)) in
    Ret (JStr base64Image)).

Definition closeTask (request : WebvizioGetTaskRequest) : Prog JsVal :=
  log_and_rethrow (
    response <- client_post ("/task/" ++ task_uuid request ++ "/close") None ;;
    member (data response) "success").

(** [getTasks]: a failure whose details carry the message
    "Project not found" is answered with [false]. *)
Definition getTasks : Prog JsVal :=
  try_catch (
    response <- client_get "/tasks" ;;
    when negb (truthy (data response))
      throw new_Error "Failed to fetch tasks" ;;
    Ret (data response))
  (fun error =>
     if isMcpError error &&
        strict_eq_str (opt_chain (thrown_prop error "details") "message")
                      "Project not found"
     then Ret (JBool false)
     else Throw error).

End Instance.

End WebvizioClient.

(* ===================================================================== *)
(** ** src/server.ts *)
(* ===================================================================== *)

Module WebvizioMcpServer.

(** The interface of the adapter held in [this.webvizioClient]. *)
Record Client := {
  getProjects : Prog JsVal;
  getCurrentProject : Prog JsVal;
  setProject : WebvizioSetProjectRequest -> Prog JsVal;
  getTaskPrompt : WebvizioGetTaskRequest -> Prog JsVal;
  getTaskDescription : WebvizioGetTaskRequest -> Prog JsVal;
  getTaskConsoleLogs : WebvizioGetTaskRequest -> Prog JsVal;
  getTaskNetworkLogs : WebvizioGetTaskRequest -> Prog JsVal;
  getTaskActionLogs : WebvizioGetTaskRequest -> Prog JsVal;
  getTaskScreenshot : WebvizioGetTaskRequest -> Prog JsVal;
  closeTask : WebvizioGetTaskRequest -> Prog JsVal;
  getTasks : Prog JsVal
}.

(** [new WebvizioClient(config)] *)
Definition new_WebvizioClient (config : WebvizioConfig) : Client :=
  {| getProjects := WebvizioClient.getProjects config;
     getCurrentProject := WebvizioClient.getCurrentProject config;
     setProject := WebvizioClient.setProject config;
     getTaskPrompt := WebvizioClient.getTaskPrompt config;
     getTaskDescription := WebvizioClient.getTaskDescription config;
     getTaskConsoleLogs := WebvizioClient.getTaskConsoleLogs config;
     getTaskNetworkLogs := WebvizioClient.getTaskNetworkLogs config;
     getTaskActionLogs := WebvizioClient.getTaskActionLogs config;
     getTaskScreenshot := WebvizioClient.getTaskScreenshot config;
     closeTask := WebvizioClient.closeTask config;
     getTasks := WebvizioClient.getTasks config |}.

(** The result of a tool call. *)
Inductive ContentItem :=
| TextContent (text : string)
| ImageContent (image : JsVal) (mimeType : string).

Record ToolResponse := {
  content : list ContentItem;
  isError : bool
}.

Definition text_response (text : string) : ToolResponse :=
  {| content := [TextContent text]; isError := false |}.

Definition error_response (text : string) : ToolResponse :=
  {| content := [TextContent text]; isError := true |}.

(** The arguments of a tool whose input schema is [{ uuid: z.string() }]. *)
Record Args := { uuid : string }.

Inductive ToolName :=
| get_projects
| get_current_project
| set_project
| get_tasks
| get_task_description
| get_task_prompt
| get_task_console_logs
| get_task_network_logs
| get_task_action_logs
| get_task_screenshot
| close_task.

Definition tool_name (t : ToolName) : string :=
  match t with
  | get_projects => "get_projects"
  | get_current_project => "get_current_project"
  | set_project => "set_project"
  | get_tasks => "get_tasks"
  | get_task_description => "get_task_description"
  | get_task_prompt => "get_task_prompt"
  | get_task_console_logs => "get_task_console_logs"
  | get_task_network_logs => "get_task_network_logs"
  | get_task_action_logs => "get_task_action_logs"
  | get_task_screenshot => "get_task_screenshot"
  | close_task => "close_task"
  end.

Scheme Equality for ToolName.

(** [isMcpError] of the server (the same test as the client's). *)
Definition isMcpError (error : Thrown) : bool :=
  thrown_truthy error && thrown_typeof_object error &&
  thrown_in "code" error && thrown_in "message" error.

(** [handleError] *)
Definition handleError (error : Thrown) (toolName : string) : Prog ToolResponse :=
  if isMcpError error then
    c <- ToString (thrown_prop error "code") ;;
    m <- ToString (thrown_prop error "message") ;;
    let details := thrown_prop error "details" in
    Ret (error_response
           ("Error " ++ c ++ ": " ++ m ++
            (if truthy details
             then nl ++ "Details: " ++ JSON_stringify details
             else "")))
  else
    Ret (error_response
           ("Error: " ++
            (if instanceof_Error error
             then match error with
                  | ThrownError e => error_message e
                  | ThrownValue _ => ""
                  end
             else "Unknown error occurred"))).

Definition no_project_selected : string :=
  "No project selected. You need to get the list of projects via get_projects tool select the uuid of the required project and set it using set_project tool".

Section Tools.

Variable webvizioClient : Client.

Definition get_projects_handler : Prog ToolResponse :=
  try_catch (
    projects <- getProjects webvizioClient ;;
    len <- member projects "length" ;;
    n <- ToString len ;;
    Ret (text_response
           ("Found " ++ n ++ " projects:" ++ nl ++ nl ++ JSON_stringify projects)))
  (fun error => handleError error "get_projects").

Definition get_current_project_handler : Prog ToolResponse :=
  try_catch (
    currentProject <- getCurrentProject webvizioClient ;;
    Ret (text_response
           ("Current project details:" ++ nl ++ nl ++ JSON_stringify currentProject)))
  (fun error => handleError error "get_current_project").

Definition set_project_handler (args : Args) : Prog ToolResponse :=
  try_catch (
    when negb (truthy (JStr (uuid args)))
      throw new_Error "project uuid is required" ;;
    let request := {| set_uuid := uuid args |} in
    success <- setProject webvizioClient request ;;
    Ret (text_response
           (if truthy success
            then "Successfully set project " ++ uuid args ++ " as current"
            else "Failed to set project " ++ uuid args ++ " as current")))
  (fun error => handleError error "set_project").

Definition get_tasks_handler : Prog ToolResponse :=
  try_catch (
    tasks <- getTasks webvizioClient ;;
    if negb (truthy tasks) || typeof_boolean tasks then
      Ret (text_response no_project_selected)
    else
      len <- member tasks "length" ;;
      n <- ToString len ;;
      Ret (text_response
             ("Found " ++ n ++ " tasks:" ++ nl ++ nl ++ JSON_stringify tasks)))
  (fun error => handleError error "get_tasks").

Definition get_task_description_handler (args : Args) : Prog ToolResponse :=
  try_catch (
    description <- getTaskDescription webvizioClient {| task_uuid := uuid args |} ;;
    d <- ToString description ;;
    Ret (text_response ("Task description:" ++ nl ++ nl ++ d)))
  (fun error => handleError error "get_task_description").

Definition get_task_prompt_handler (args : Args) : Prog ToolResponse :=
  try_catch (
    prompt <- getTaskPrompt webvizioClient {| task_uuid := uuid args |} ;;
    p <- ToString prompt ;;
    Ret (text_response ("Task prompt:" ++ nl ++ nl ++ p)))
  (fun error => handleError error "get_task_prompt").

Definition get_task_console_logs_handler (args : Args) : Prog ToolResponse :=
  try_catch (
    consoleLogs <- getTaskConsoleLogs webvizioClient {| task_uuid := uuid args |} ;;
    if negb (truthy consoleLogs) then
      Ret (text_response "No console logs found")
    else
      l <- ToString consoleLogs ;;
      Ret (text_response ("Task console logs:" ++ nl ++ nl ++ l)))
  (fun error => handleError error "get_task_console_logs").

Definition get_task_network_logs_handler (args : Args) : Prog ToolResponse :=
  try_catch (
    networkLogs <- getTaskNetworkLogs webvizioClient {| task_uuid := uuid args |} ;;
    if negb (truthy networkLogs) then
      Ret (text_response "No network logs found")
    else
      l <- ToString networkLogs ;;
      Ret (text_response ("Task network logs:" ++ nl ++ nl ++ l)))
  (fun error => handleError error "get_task_network_logs").

Definition get_task_action_logs_handler (args : Args) : Prog ToolResponse :=
  try_catch (
    actionLogs <- getTaskActionLogs webvizioClient {| task_uuid := uuid args |} ;;
    if negb (truthy actionLogs) then
      Ret (text_response "No action logs found")
    else
      l <- ToString actionLogs ;;
      Ret (text_response ("Task action logs:" ++ nl ++ nl ++ l)))
  (fun error => handleError error "get_task_action_logs").

Definition get_task_screenshot_handler (args : Args) : Prog ToolResponse :=
  try_catch (
    screenshot <- getTaskScreenshot webvizioClient {| task_uuid := uuid args |} ;;
    Ret {| content := [ImageContent screenshot "image/png"]; isError := false |})
  (fun error => handleError error "get_task_screenshot").

Definition close_task_handler (args : Args) : Prog ToolResponse :=
  try_catch (
    result <- closeTask webvizioClient {| task_uuid := uuid args |} ;;
    Ret (text_response "Task closed successfully"))
  (fun error => handleError error "close_task").

(** The handler registered under each tool name by [setupTools]. *)
Definition handler (t : ToolName) (args : Args) : Prog ToolResponse :=
  match t with
  | get_projects => get_projects_handler
  | get_current_project => get_current_project_handler
  | set_project => set_project_handler args
  | get_tasks => get_tasks_handler
  | get_task_description => get_task_description_handler args
  | get_task_prompt => get_task_prompt_handler args
  | get_task_console_logs => get_task_console_logs_handler args
  | get_task_network_logs => get_task_network_logs_handler args
  | get_task_action_logs => get_task_action_logs_handler args
  | get_task_screenshot => get_task_screenshot_handler args
  | close_task => close_task_handler args
  end.

End Tools.

(** The handlers of the server built by [new WebvizioMcpServer(config)]. *)
Definition server (config : WebvizioConfig) : ToolName -> Args -> Prog ToolResponse :=
  handler (new_WebvizioClient config).

End WebvizioMcpServer.

Import WebvizioMcpServer.

(* ===================================================================== *)
(** ** src/config.ts and the entry point *)
(* ===================================================================== *)

Module Startup.

(** [process.env] as it stands after [dotenv.config()]. *)
Definition Env := string -> option string.

(** [getConfig] *)
Definition getConfig (env : Env) : Prog WebvizioConfig :=
  match env "WEBVIZIO_API_KEY" with
  | Some apiKey =>
      when negb (truthy (JStr apiKey))
        throw new_Error "WEBVIZIO_API_KEY environment variable is required" ;;
      Ret {| apiKey := apiKey; baseUrl := "https://app.webvizio.com/api/mcp/v1/" |}
  | None =>
      Throw (new_Error "WEBVIZIO_API_KEY environment variable is required")
  end.

(** [s.includes(sub)] *)
Fixpoint includes (s sub : string) : bool :=
  String.prefix sub s ||
  match s with
  | EmptyString => false
  | String _ rest => includes rest sub
  end.

(** How [main] ends: the server is connected and serves, or the process
    exits with a code, after printing the configuration help or not. *)
Inductive Started :=
| Serving (config : WebvizioConfig)
| Exited (code : Z) (help : bool).

(** [main].  The construction of the server, [start] and the connection
    to the stdio transport belong to the MCP SDK: [boot] says what they
    throw, if anything.  Of the lines printed, only the presence of the
    configuration help is kept. *)
Definition main (env : Env) (boot : WebvizioConfig -> option Thrown) : Prog Started :=
  try_catch (
    config <- getConfig env ;;
    match boot config with
    | Some error => Throw error
    | None => Ret (Serving config)
    end)
  (fun error =>
     Ret (Exited 1
            (match error with
             | ThrownError e => includes (error_message e) "WEBVIZIO_API_KEY"
             | ThrownValue _ => false
             end))).

End Startup.

(* ===================================================================== *)
(** ** Vocabulary of the statements *)
(* ===================================================================== *)

Module Statements.
Import WebvizioClient.

Local Open Scope Z_scope.

(** The table of fixed messages, as the specification lists it. *)
Definition fixed_message (status : Z) : option string :=
  match status with
  | 401 => Some "Unauthorized: Invalid or missing API key"
  | 403 => Some "Forbidden: Access denied"
  | 404 => Some "Not Found: Resource not found"
  | 429 => Some "Rate Limit Exceeded: Too many requests"
  | 500 => Some "Internal Server Error: Webvizio API error"
  | _ => None
  end.

(** The message taken from a response body: its [message] field, else its
    [error] field, else the generic text. *)
Definition extracted_message (resp : AxiosResponse JsVal) : JsVal :=
  if truthy (opt_chain (data resp) "message") then opt_chain (data resp) "message"
  else if truthy (opt_chain (data resp) "error") then opt_chain (data resp) "error"
  else JStr ("HTTP " ++ Number_toString (status resp) ++ ": " ++ statusText resp).

(** The operations of the adapter, each with the identifier it is given
    (ignored by the operations that take none). *)
Inductive Operation :=
| op_getProjects
| op_getCurrentProject
| op_setProject
| op_getTaskPrompt
| op_getTaskDescription
| op_getTaskConsoleLogs
| op_getTaskNetworkLogs
| op_getTaskActionLogs
| op_getTaskErrorLogs
| op_getTaskScreenshot
| op_closeTask
| op_getTasks.

Definition perform (config : WebvizioConfig) (op : Operation) (id : string)
  : Prog JsVal :=
  match op with
  | op_getProjects => WebvizioClient.getProjects config
  | op_getCurrentProject => WebvizioClient.getCurrentProject config
  | op_setProject => WebvizioClient.setProject config {| set_uuid := id |}
  | op_getTaskPrompt => WebvizioClient.getTaskPrompt config {| task_uuid := id |}
  | op_getTaskDescription =>
      WebvizioClient.getTaskDescription config {| task_uuid := id |}
  | op_getTaskConsoleLogs =>
      WebvizioClient.getTaskConsoleLogs config {| task_uuid := id |}
  | op_getTaskNetworkLogs =>
      WebvizioClient.getTaskNetworkLogs config {| task_uuid := id |}
  | op_getTaskActionLogs =>
      WebvizioClient.getTaskActionLogs config {| task_uuid := id |}
  | op_getTaskErrorLogs =>
      WebvizioClient.getTaskErrorLogs config {| task_uuid := id |}
  | op_getTaskScreenshot =>
      WebvizioClient.getTaskScreenshot config {| task_uuid := id |}
  | op_closeTask => WebvizioClient.closeTask config {| task_uuid := id |}
  | op_getTasks => WebvizioClient.getTasks config
  end.

(** The request to the service with which each operation starts. *)
Definition operation_request (config : WebvizioConfig) (op : Operation)
           (id : string) : HttpRequest :=
  match op with
  | op_getProjects => instance_request config GET "/projects" None
  | op_getCurrentProject => instance_request config GET "/current-project" None
  | op_setProject =>
      instance_request config POST "/set-project" (Some (JObj [("uuid", JStr id)]))
  | op_getTaskPrompt => instance_request config GET ("/task/" ++ id ++ "/prompt") None
  | op_getTaskDescription => instance_request config GET ("/task/" ++ id) None
  | op_getTaskConsoleLogs =>
      instance_request config GET ("/task/" ++ id ++ "/console-logs") None
  | op_getTaskNetworkLogs =>
      instance_request config GET ("/task/" ++ id ++ "/network-logs") None
  | op_getTaskActionLogs =>
      instance_request config GET ("/task/" ++ id ++ "/action-logs") None
  | op_getTaskErrorLogs =>
      instance_request config GET ("/task/" ++ id ++ "/error-logs") None
  | op_getTaskScreenshot =>
      instance_request config GET ("/task/" ++ id ++ "/screenshot") None
  | op_closeTask => instance_request config POST ("/task/" ++ id ++ "/close") None
  | op_getTasks => instance_request config GET "/tasks" None
  end.

Definition is_getTasks (op : Operation) : bool :=
  match op with
  | op_getTasks => true
  | _ => false
  end.

(** The optional block that [handleError] appends for truthy details. *)
Definition details_block (details : JsVal) : string :=
  if truthy details then nl ++ "Details: " ++ JSON_stringify details else "".

(** The test of [getTasks] on the details of an error. *)
Definition carries_project_not_found (details : JsVal) : bool :=
  strict_eq_str (opt_chain details "message") "Project not found".

(** The body that came with an outcome of the HTTP layer, if any. *)
Definition body_of (o : AxiosOutcome JsVal) : JsVal :=
  match o with
  | Answered resp => data resp
  | Failed error =>
      match response error with
      | Some resp => data resp
      | None => JUndefined
      end
  end.

(** The request each tool's adapter operation dispatches first. *)
Definition tool_request (config : WebvizioConfig) (t : ToolName) (args : Args)
  : HttpRequest :=
  match t with
  | get_projects => instance_request config GET "/projects" None
  | get_current_project => instance_request config GET "/current-project" None
  | set_project =>
      instance_request config POST "/set-project"
        (Some (JObj [("uuid", JStr (uuid args))]))
  | get_tasks => instance_request config GET "/tasks" None
  | get_task_description =>
      instance_request config GET ("/task/" ++ uuid args) None
  | get_task_prompt =>
      instance_request config GET ("/task/" ++ uuid args ++ "/prompt") None
  | get_task_console_logs =>
      instance_request config GET ("/task/" ++ uuid args ++ "/console-logs") None
  | get_task_network_logs =>
      instance_request config GET ("/task/" ++ uuid args ++ "/network-logs") None
  | get_task_action_logs =>
      instance_request config GET ("/task/" ++ uuid args ++ "/action-logs") None
  | get_task_screenshot =>
      instance_request config GET ("/task/" ++ uuid args ++ "/screenshot") None
  | close_task =>
      instance_request config POST ("/task/" ++ uuid args ++ "/close") None
  end.

(** The remote service answers every request with status 401. *)
Definition answers_401 (w : World) : Prop :=
  forall r : HttpRequest,
    exists error resp,
      api w r = Failed error /\ response error = Some resp /\ status resp = 401%Z.

Definition is_get_tasks (t : ToolName) : bool :=
  match t with
  | get_tasks => true
  | _ => false
  end.

Definition unauthorized_text (body : JsVal) : string :=
  "Error 401: Unauthorized: Invalid or missing API key" ++ details_block body.

(** *** Worlds for concrete runs *)

Definition config0 : WebvizioConfig :=
  {| apiKey := "secret"; baseUrl := "https://app.webvizio.com/api/mcp/v1/" |}.

Definition http_error (st : Z) (text : string) (body : JsVal) : AxiosOutcome JsVal :=
  Failed {| response := Some {| status := st; statusText := text; data := body |};
            request := true;
            message := "Request failed with status code " ++ Number_toString st;
            code := Some "ERR_BAD_REQUEST" |}.

Definition http_ok {D : Type} (body : D) : AxiosOutcome D :=
  Answered {| status := 200; statusText := "OK"; data := body |}.

Definition unreachable {D : Type} : AxiosOutcome D :=
  Failed {| response := None; request := true;
            message := "connect ECONNREFUSED"; code := Some "ECONNREFUSED" |}.

(** A world whose service gives the same outcome to every request. *)
Definition answering (o : AxiosOutcome JsVal) : World :=
  {| api := fun _ => o; fetch := fun _ => unreachable |}.

Definition world_401_project_not_found : World :=
  answering (http_error 401 "Unauthorized"
               (JObj [("message", JStr "Project not found")])).

(** An adapter stub whose every operation returns [result] at once. *)
Definition stub_client (result : JsVal) : Client :=
  {| WebvizioMcpServer.getProjects := Ret result;
     WebvizioMcpServer.getCurrentProject := Ret result;
     WebvizioMcpServer.setProject := fun _ => Ret result;
     WebvizioMcpServer.getTaskPrompt := fun _ => Ret result;
     WebvizioMcpServer.getTaskDescription := fun _ => Ret result;
     WebvizioMcpServer.getTaskConsoleLogs := fun _ => Ret result;
     WebvizioMcpServer.getTaskNetworkLogs := fun _ => Ret result;
     WebvizioMcpServer.getTaskActionLogs := fun _ => Ret result;
     WebvizioMcpServer.getTaskScreenshot := fun _ => Ret result;
     WebvizioMcpServer.closeTask := fun _ => Ret result;
     WebvizioMcpServer.getTasks := Ret result |}.

Definition log_tool_failure (t : ToolName) : string :=
  match t with
  | get_task_console_logs => "Error: Failed to get console logs prompt"
  | get_task_network_logs => "Error: Failed to get network logs prompt"
  | get_task_action_logs => "Error: Failed to get action logs prompt"
  | _ => ""
  end.

Definition world_screenshot (picture : list byte) : World :=
  {| api := fun _ => http_ok (JObj [("screenshot", JStr "https://cdn.example/s.png")]);
     fetch := fun _ => http_ok picture |}.

(** The service answers 400 with the body [{"message": {"toString": 1}}]. *)
Definition world_unprintable_message : World :=
  answering (http_error 400 "Bad Request"
               (JObj [("message", JObj [("toString", JNum 1)])])).

(** The service answers 404 with the body [{"message": "Project not found"}]. *)
Definition world_404_project_not_found : World :=
  answering (http_error 404 "Not Found"
               (JObj [("message", JStr "Project not found")])).

(** The code and the message of a thrown value convert to text when
    [handleError] needs them. *)
Definition printable (error : Thrown) : bool :=
  negb (WebvizioMcpServer.isMcpError error) ||
  (match to_string (thrown_prop error "code") with Some _ => true | None => false end &&
   match to_string (thrown_prop error "message") with Some _ => true | None => false end).

(** A settlement that is a response marked as an error whose text starts
    with code 401 and the fixed message. *)
Definition reports_401 (s : Settled ToolResponse) : Prop :=
  exists text,
    s = Resolved (error_response text) /\
    String.prefix "Error 401: Unauthorized: Invalid or missing API key" text = true.

(** A program all of whose rejections are printable. *)
Definition safe {A : Type} (w : World) (p : Prog A) : Prop :=
  forall (tr : list HttpRequest) (e : Thrown),
    run w p = (tr, Rejected e) -> printable e = true.

(** Every failure the service produces reduces to an error whose message
    converts to text. *)
Definition printable_failures (w : World) : Prop :=
  forall (r : HttpRequest) (error : AxiosError),
    api w r = Failed error ->
    to_string (get_prop (handleApiError error) "message") <> None.

(** The same of the failure of one call, if it fails. *)
Definition printable_failure_at (w : World) (r : HttpRequest) : Prop :=
  forall error : AxiosError,
    api w r = Failed error ->
    to_string (get_prop (handleApiError error) "message") <> None.

Definition all_tools : list ToolName :=
  [get_projects; get_current_project; set_project; get_tasks;
   get_task_description; get_task_prompt; get_task_console_logs;
   get_task_network_logs; get_task_action_logs; get_task_screenshot;
   close_task].

(** *** Vocabulary of the further properties *)

(** A program that awaits no HTTP exchange. *)
Definition quiet {A : Type} (p : Prog A) : Prop :=
  forall w : World, fst (run w p) = [].

(** A call configured by the adapter's instance: base URL, bearer token,
    JSON headers, timeout. *)
Definition through_instance (config : WebvizioConfig) (r : HttpRequest) : Prop :=
  req_baseURL r = Some (baseUrl config) /\
  req_headers r = [("Authorization", "Bearer " ++ apiKey config);
                   ("Content-Type", "application/json");
                   ("Accept", "application/json")] /\
  req_timeout r = Some 30000 /\
  req_responseType r = json.

(** The tools that render one field of the response body as text: the
    field read and the label put before it. *)
Definition field_tools : list ToolName :=
  [get_task_description; get_task_prompt; get_task_console_logs;
   get_task_network_logs; get_task_action_logs].

Definition field_of (t : ToolName) : string :=
  match t with
  | get_task_description => "description"
  | _ => "prompt"
  end.

Definition label_of (t : ToolName) : string :=
  match t with
  | get_task_description => "Task description:"
  | get_task_prompt => "Task prompt:"
  | get_task_console_logs => "Task console logs:"
  | get_task_network_logs => "Task network logs:"
  | get_task_action_logs => "Task action logs:"
  | _ => ""
  end.

(** The operations that return a part of the answer of the service and
    test it before: all but [getTaskScreenshot], which returns what it
    encodes, [closeTask] and [getTasks]. *)
Definition checked_operations : list Operation :=
  [op_getProjects; op_getCurrentProject; op_setProject; op_getTaskPrompt;
   op_getTaskDescription; op_getTaskConsoleLogs; op_getTaskNetworkLogs;
   op_getTaskActionLogs; op_getTaskErrorLogs].

(** The text of a [TypeError] for reading [key] of a null or undefined
    value (V8 wording). *)
Definition cannot_read (v : JsVal) (key : string) : string :=
  "Cannot read properties of " ++
  (match v with JNull => "null" | _ => "undefined" end) ++
  " (reading '" ++ key ++ "')".

(** The service gives the URL of the screenshot; its download fails. *)
Definition world_broken_download : World :=
  {| api := fun _ => http_ok (JObj [("screenshot", JStr "https://cdn.example/s.png")]);
     fetch := fun _ => Failed {| response := None; request := true;
                                 message := "Request failed with status code 404";
                                 code := Some "ERR_BAD_REQUEST" |} |}.

(** The service gives the URL of the screenshot; its download is
    answered with status 404. *)
Definition download_404 : AxiosError :=
  {| response := Some {| status := 404; statusText := "Not Found"; data := JStr "" |};
     request := true;
     message := "Request failed with status code 404";
     code := Some "ERR_BAD_REQUEST" |}.

Definition world_download_404 : World :=
  {| api := fun _ => http_ok (JObj [("screenshot", JStr "https://cdn.example/s.png")]);
     fetch := fun _ => Failed download_404 |}.

(** A failure answered with a status outside the table and an empty body. *)
Definition teapot : AxiosError :=
  {| response := Some {| status := 418; statusText := "I'm a teapot"; data := JNull |};
     request := true;
     message := "Request failed with status code 418";
     code := Some "ERR_BAD_REQUEST" |}.

(** The block of details of an error without a response. *)
Definition original_error_block (error : AxiosError) : string :=
  details_block (JObj [("originalError", JStr (message error))]).

End Statements.
Import Statements.

(* ===================================================================== *)
(** ** Numbers: integers print as their digits *)
(* ===================================================================== *)

Module JsFacts.

Lemma safe_integer_toString (n : Z) :
  (Z.abs n <= 9007199254740992)%Z -> Number_toString n = show_Z n.
Proof.
  intros H. unfold Number_toString, is_safe_integer. cbn [of_Z exponent significand].
  apply Z.leb_le in H. rewrite H. reflexivity.
Qed.

(** The length of an array, which has at most 2^32 - 1 elements, as a
    template literal prints it. *)
Lemma length_to_string (items : list JsVal) :
  (Z.of_nat (List.length items) <= 4294967295)%Z ->
  to_string (get_prop (JArr items) "length") = Some (show_nat (List.length items)).
Proof.
  intros H. cbn [get_prop String.eqb Ascii.eqb Bool.eqb to_string].
  rewrite safe_integer_toString; [reflexivity | lia].
Qed.

End JsFacts.

(* ===================================================================== *)
(** ** Running programs: general lemmas *)
(* ===================================================================== *)

Section RunLemmas.

Context {A : Type} (w : World).

Lemma run_bind {B : Type} (p : Prog A) (f : A -> Prog B) :
  run w (bind p f) =
  match run w p with
  | (t, Resolved a) => let (t', s) := run w (f a) in ((t ++ t')%list, s)
  | (t, Rejected e) => (t, Rejected e)
  end.
Proof.
  induction p as [a | e | r k IH | r k IH]; simpl.
  - destruct (run w (f a)); reflexivity.
  - reflexivity.
  - rewrite IH. destruct (run w (k (api w r))) as [t [a | e]]; simpl.
    + destruct (run w (f a)); reflexivity.
    + reflexivity.
  - rewrite IH. destruct (run w (k (fetch w r))) as [t [a | e]]; simpl.
    + destruct (run w (f a)); reflexivity.
    + reflexivity.
Qed.

Lemma run_try_catch (p : Prog A) (h : Thrown -> Prog A) :
  run w (try_catch p h) =
  match run w p with
  | (t, Resolved a) => (t, Resolved a)
  | (t, Rejected e) => let (t', s) := run w (h e) in ((t ++ t')%list, s)
  end.
Proof.
  induction p as [a | e | r k IH | r k IH]; simpl.
  - reflexivity.
  - destruct (run w (h e)); reflexivity.
  - rewrite IH. destruct (run w (k (api w r))) as [t [a | e]]; simpl.
    + reflexivity.
    + destruct (run w (h e)); reflexivity.
  - rewrite IH. destruct (run w (k (fetch w r))) as [t [a | e]]; simpl.
    + reflexivity.
    + destruct (run w (h e)); reflexivity.
Qed.

(** Catching only to throw again changes nothing. *)
Lemma log_and_rethrow_id (p : Prog A) :
  run w (WebvizioClient.log_and_rethrow p) = run w p.
Proof.
  unfold WebvizioClient.log_and_rethrow. rewrite run_try_catch.
  destruct (run w p) as [t [a | e]]; simpl; [reflexivity |].
  rewrite app_nil_r. reflexivity.
Qed.

End RunLemmas.

(** A program resolved or rejected without awaiting anything. *)
Lemma run_Ret {A : Type} (w : World) (a : A) : run w (Ret a) = ([], Resolved a).
Proof. reflexivity. Qed.

Lemma run_Throw {A : Type} (w : World) (e : Thrown) :
  run w (@Throw A e) = ([], Rejected e).
Proof. reflexivity. Qed.

(** One call through the axios instance: the request made, and the
    interceptor's conversion of a failure. *)
Lemma run_client_call (w : World) (config : WebvizioConfig) (m : Method)
      (url : string) (body : option JsVal) :
  let r := WebvizioClient.instance_request config m url body in
  run w (WebvizioClient.client_call config m url body) =
  ([r], match api w r with
        | Answered resp => Resolved resp
        | Failed error => Rejected (ThrownValue (WebvizioClient.handleApiError error))
        end).
Proof.
  simpl. unfold WebvizioClient.client_call. simpl.
  destruct (api w _); reflexivity.
Qed.

(* ===================================================================== *)
(** ** Base64: decoding an encoding gives the bytes back *)
(* ===================================================================== *)

Module Base64Facts.
Import Base64.

Local Open Scope N_scope.

Lemma below_64_listed (n : N) : n < 64 -> In n (map N.of_nat (seq 0 64)).
Proof.
  intros H. apply in_map_iff. exists (N.to_nat n). split.
  - apply N2Nat.id.
  - apply in_seq. lia.
Qed.

Lemma value_digit (n : N) : n < 64 -> value (digit n) = Some n.
Proof.
  intros H.
  assert (All : forallb (fun i => match value (digit i) with
                                  | Some m => m =? i
                                  | None => false
                                  end) (map N.of_nat (seq 0 64)) = true)
    by (vm_compute; reflexivity).
  rewrite forallb_forall in All.
  specialize (All n (below_64_listed n H)).
  destruct (value (digit n)) as [m |]; [| discriminate].
  apply N.eqb_eq in All. congruence.
Qed.

Lemma digit_not_pad (n : N) : n < 64 -> Ascii.eqb (digit n) pad = false.
Proof.
  intros H.
  assert (All : forallb (fun i => negb (Ascii.eqb (digit i) pad))
                        (map N.of_nat (seq 0 64)) = true)
    by (vm_compute; reflexivity).
  rewrite forallb_forall in All.
  specialize (All n (below_64_listed n H)).
  now apply negb_true_iff in All.
Qed.

Lemma byte_of_to_N (b : byte) : byte_of_N (Byte.to_N b) = b.
Proof. unfold byte_of_N. now rewrite Byte.of_to_N. Qed.

Lemma group_bound (a b c : byte) : group a b c < 16777216.
Proof.
  unfold group.
  pose proof (Byte.to_N_bounded a). pose proof (Byte.to_N_bounded b).
  pose proof (Byte.to_N_bounded c). lia.
Qed.

(** The six-bit groups of a 24-bit number put it together again. *)
Lemma ungroup_sextets (g : N) :
  g < 16777216 ->
  ungroup ((g / 262144) mod 64) ((g / 4096) mod 64) ((g / 64) mod 64) (g mod 64) = g.
Proof.
  intros H. unfold ungroup.
  pose proof (N.div_mod g 64 ltac:(lia)) as E0.
  pose proof (N.div_mod (g / 64) 64 ltac:(lia)) as E1.
  pose proof (N.div_mod (g / 4096) 64 ltac:(lia)) as E2.
  rewrite (N.Div0.div_div g 64 64) in E1.
  rewrite (N.Div0.div_div g 4096 64) in E2.
  change (64 * 64) with 4096 in *. change (4096 * 64) with 262144 in *.
  assert (g / 262144 < 64) by (apply N.Div0.div_lt_upper_bound; lia).
  rewrite (N.mod_small (g / 262144) 64) by assumption.
  lia.
Qed.

Lemma bytes_of_group (a b c : byte) :
  byte_at (group a b c) 0 = a /\
  byte_at (group a b c) 1 = b /\
  byte_at (group a b c) 2 = c.
Proof.
  unfold byte_at, group.
  change (256 ^ (2 - 0)) with 65536. change (256 ^ (2 - 1)) with 256.
  change (256 ^ (2 - 2)) with 1.
  pose proof (Byte.to_N_bounded a) as Ha. pose proof (Byte.to_N_bounded b) as Hb.
  pose proof (Byte.to_N_bounded c) as Hc.
  set (x := Byte.to_N a) in *. set (y := Byte.to_N b) in *.
  set (z := Byte.to_N c) in *.
  assert (E0 : ((x * 65536 + y * 256 + z) / 65536) mod 256 = x).
  { replace (x * 65536 + y * 256 + z) with (y * 256 + z + x * 65536) by lia.
    rewrite N.div_add by lia. rewrite (N.div_small (y * 256 + z)) by lia.
    apply N.mod_small. lia. }
  assert (E1 : ((x * 65536 + y * 256 + z) / 256) mod 256 = y).
  { replace (x * 65536 + y * 256 + z) with (z + (x * 256 + y) * 256) by lia.
    rewrite N.div_add by lia. rewrite (N.div_small z) by lia. simpl.
    replace (x * 256 + y) with (y + x * 256) by lia.
    rewrite N.Div0.mod_add. apply N.mod_small. lia. }
  assert (E2 : ((x * 65536 + y * 256 + z) / 1) mod 256 = z).
  { rewrite N.div_1_r.
    replace (x * 65536 + y * 256 + z) with (z + (x * 256 + y) * 256) by lia.
    rewrite N.Div0.mod_add. apply N.mod_small. lia. }
  rewrite E0, E1, E2. subst x y z. now rewrite !byte_of_to_N.
Qed.

Lemma value_digit_at (g i : N) :
  value (digit_at g i) = Some ((g / 64 ^ (3 - i)) mod 64).
Proof. unfold digit_at. apply value_digit. apply N.mod_lt. lia. Qed.

Lemma digit_at_not_pad (g i : N) : Ascii.eqb (digit_at g i) pad = false.
Proof. unfold digit_at. apply digit_not_pad. apply N.mod_lt. lia. Qed.

(** Induction on lists three elements at a time. *)
Lemma list_ind3 {A : Type} (P : list A -> Prop) :
  P [] ->
  (forall a, P [a]) ->
  (forall a b, P [a; b]) ->
  (forall a b c l, P l -> P (a :: b :: c :: l)) ->
  forall l, P l.
Proof.
  intros H0 H1 H2 H3 l.
  cut (P l /\ (forall a, P (a :: l)) /\ (forall a b, P (a :: b :: l))).
  { intros [H _]. exact H. }
  induction l as [| x l [IH0 [IH1 IH2]]].
  - repeat split; auto.
  - repeat split; auto.
Qed.

Lemma decode_group (a b c : byte) (rest : string) (bs : list byte) :
  decode rest = Some bs ->
  decode (String (digit_at (group a b c) 0) (String (digit_at (group a b c) 1)
            (String (digit_at (group a b c) 2)
               (String (digit_at (group a b c) 3) rest))))
  = Some (a :: b :: c :: bs).
Proof.
  intros Hrest. cbn [decode].
  rewrite digit_at_not_pad, !value_digit_at, Hrest.
  change (64 ^ (3 - 0)) with 262144. change (64 ^ (3 - 1)) with 4096.
  change (64 ^ (3 - 2)) with 64. change (64 ^ (3 - 3)) with 1.
  rewrite N.div_1_r.
  rewrite ungroup_sextets by apply group_bound.
  destruct (bytes_of_group a b c) as [-> [-> ->]]. reflexivity.
Qed.

Theorem decode_encode (bs : list byte) : decode (encode bs) = Some bs.
Proof.
  induction bs as [| a | a b | a b c l IH] using list_ind3.
  - reflexivity.
  - cbn [encode decode].
    rewrite Ascii.eqb_refl, !value_digit_at.
    change (64 ^ (3 - 0)) with 262144. change (64 ^ (3 - 1)) with 4096.
    change (64 ^ (3 - 2)) with 64.
    pose proof (ungroup_sextets (group a x00 x00) (group_bound _ _ _)) as E.
    assert (Z2 : (group a x00 x00 / 64) mod 64 = 0 /\ group a x00 x00 mod 64 = 0).
    { unfold group. simpl Byte.to_N.
      replace (Byte.to_N a * 65536 + 0 * 256 + 0) with (Byte.to_N a * 65536) by lia.
      split.
      - replace (Byte.to_N a * 65536) with (Byte.to_N a * 1024 * 64) by lia.
        rewrite N.div_mul by lia.
        replace (Byte.to_N a * 1024) with (Byte.to_N a * 16 * 64) by lia.
        apply N.Div0.mod_mul.
      - replace (Byte.to_N a * 65536) with (Byte.to_N a * 1024 * 64) by lia.
        apply N.Div0.mod_mul. }
    destruct Z2 as [Z2 Z3]. rewrite Z2, Z3 in E. rewrite E.
    destruct (bytes_of_group a x00 x00) as [-> _]. reflexivity.
  - cbn [encode decode].
    rewrite Ascii.eqb_refl, digit_at_not_pad, !value_digit_at.
    change (64 ^ (3 - 0)) with 262144. change (64 ^ (3 - 1)) with 4096.
    change (64 ^ (3 - 2)) with 64.
    pose proof (ungroup_sextets (group a b x00) (group_bound _ _ _)) as E.
    assert (Z3 : group a b x00 mod 64 = 0).
    { unfold group. simpl Byte.to_N.
      replace (Byte.to_N a * 65536 + Byte.to_N b * 256 + 0)
        with ((Byte.to_N a * 1024 + Byte.to_N b * 4) * 64) by lia.
      apply N.Div0.mod_mul. }
    rewrite Z3 in E. rewrite E.
    destruct (bytes_of_group a b x00) as [-> [-> _]]. reflexivity.
  - cbn [encode]. apply decode_group. exact IH.
Qed.

(** Hence the encoding loses nothing, whichever decoder reads it. *)
Corollary encode_injective (a b : list byte) : encode a = encode b -> a = b.
Proof.
  intros E. pose proof (decode_encode a) as Da.
  rewrite E, decode_encode in Da. now injection Da.
Qed.

End Base64Facts.

(* ===================================================================== *)
(** ** The transport adapter: error reduction *)
(* ===================================================================== *)

Module AdapterFacts.
Import WebvizioClient.

Local Open Scope Z_scope.

Lemma handleApiError_response (error : AxiosError) (resp : AxiosResponse JsVal) :
  response error = Some resp ->
  handleApiError error =
  McpError (status resp)
    (match fixed_message (status resp) with
     | Some m => JStr m
     | None => extracted_message resp
     end)
    (data resp).
Proof.
  intros H. unfold handleApiError. rewrite H.
  destruct resp as [s st d]. unfold extracted_message. cbn [status statusText data].
  destruct s as [| p | p]; try reflexivity.
  do 9 (destruct p as [p | p |]; try reflexivity).
Qed.

Lemma handleApiError_no_response (error : AxiosError) :
  response error = None ->
  handleApiError error =
  McpError (if request error then 0 else -1)
    (JStr (if request error
           then "Network Error: Unable to reach Webvizio API"
           else "Request Error: " ++ message error))
    (JObj [("originalError", JStr (message error))]).
Proof.
  intros H. unfold handleApiError. rewrite H. now destruct (request error).
Qed.

(** A reduction has the two fields by which both [isMcpError] tests
    recognise an [McpError]. *)
Lemma reduction_isMcpError (error : AxiosError) :
  WebvizioClient.isMcpError (ThrownValue (handleApiError error)) = true /\
  WebvizioMcpServer.isMcpError (ThrownValue (handleApiError error)) = true.
Proof.
  unfold handleApiError.
  destruct (response error) as [resp |].
  - repeat (match goal with |- context [if ?c then _ else _] => destruct c end;
            try (split; reflexivity)).
  - destruct (request error); split; reflexivity.
Qed.

(** One adapter operation of the shape "await a call, then continue". *)
Lemma run_adapter_call {A : Type} (w : World) (config : WebvizioConfig)
      (m : Method) (url : string) (body : option JsVal)
      (f : AxiosResponse JsVal -> Prog A) :
  run w (log_and_rethrow (bind (client_call config m url body) f)) =
  match api w (instance_request config m url body) with
  | Answered resp =>
      let (t, s) := run w (f resp) in (instance_request config m url body :: t, s)
  | Failed error =>
      ([instance_request config m url body],
       Rejected (ThrownValue (handleApiError error)))
  end.
Proof.
  rewrite log_and_rethrow_id. cbn [client_call bind run].
  destruct (api w _); reflexivity.
Qed.

Lemma run_getTasks (w : World) (config : WebvizioConfig) :
  run w (WebvizioClient.getTasks config) =
  ([instance_request config GET "/tasks" None],
   match api w (instance_request config GET "/tasks" None) with
   | Answered resp =>
       if truthy (data resp) then Resolved (data resp)
       else Rejected (new_Error "Failed to fetch tasks")
   | Failed error =>
       if carries_project_not_found
            (get_prop (handleApiError error) "details")
       then Resolved (JBool false)
       else Rejected (ThrownValue (handleApiError error))
   end).
Proof.
  unfold WebvizioClient.getTasks, client_get. rewrite run_try_catch.
  cbn [client_call bind run].
  destruct (api w _) as [resp | error].
  - cbn [bind]. destruct (truthy (data resp)); reflexivity.
  - cbn [bind run].
    rewrite (proj1 (reduction_isMcpError error)). cbn [andb thrown_prop].
    unfold carries_project_not_found.
    destruct (strict_eq_str _ _); reflexivity.
Qed.

(** Each operation of the adapter starts with a call through the instance;
    when that call fails, the operation rejects with the reduction of the
    failure ([getTasks] unless the details carry "Project not found"). *)
Lemma operation_failure (config : WebvizioConfig) (op : Operation) (id : string)
      (w : World) (error : AxiosError) :
  api w (operation_request config op id) = Failed error ->
  run w (perform config op id) =
  ([operation_request config op id],
   if is_getTasks op &&
      carries_project_not_found (get_prop (handleApiError error) "details")
   then Resolved (JBool false)
   else Rejected (ThrownValue (handleApiError error))).
Proof.
  intros H.
  destruct op; cbn [operation_request perform is_getTasks andb] in *;
    try (unfold WebvizioClient.getProjects, WebvizioClient.getCurrentProject,
           WebvizioClient.setProject, WebvizioClient.getTaskPrompt,
           WebvizioClient.getTaskDescription, WebvizioClient.getTaskConsoleLogs,
           WebvizioClient.getTaskNetworkLogs, WebvizioClient.getTaskActionLogs,
           WebvizioClient.getTaskErrorLogs, WebvizioClient.getTaskScreenshot,
           WebvizioClient.closeTask, client_get, client_post;
         cbn [task_uuid set_uuid];
         rewrite run_adapter_call, H; reflexivity).
  rewrite run_getTasks, H.
  now destruct (carries_project_not_found _).
Qed.

(** The one call of the adapter outside its instance: when the download
    of the screenshot fails, [getTaskScreenshot] rejects with the error
    of the HTTP layer as it is. *)
Lemma download_failure (config : WebvizioConfig) (id : string) (w : World)
      (meta : AxiosResponse JsVal) (error : AxiosError) :
  api w (operation_request config op_getTaskScreenshot id) = Answered meta ->
  truthy (opt_chain (data meta) "screenshot") = true ->
  fetch w (plain_request (get_prop (data meta) "screenshot")) = Failed error ->
  run w (perform config op_getTaskScreenshot id) =
  ([operation_request config op_getTaskScreenshot id;
    plain_request (get_prop (data meta) "screenshot")],
   Rejected (AxiosError_thrown error)).
Proof.
  intros Ha T Hf. cbn [operation_request perform] in *.
  unfold WebvizioClient.getTaskScreenshot, client_get. cbn [task_uuid].
  rewrite run_adapter_call, Ha, T.
  cbn [negb bind axios_get_arraybuffer run]. rewrite Hf. reflexivity.
Qed.

(** C1, as the code has it.  The error reduction of the adapter: when a
    response was received the code is the HTTP status itself, the details
    are the response body, and the message is the fixed one for
    401/403/404/429/500 and otherwise the body's [message] field, else its
    [error] field, else "HTTP <status>: <statusText>".  Without a response
    the code is 0 when a request was dispatched and -1 when it was not.
    The reduction is what every call through the adapter's HTTP instance
    rejects with, hence every operation of the adapter whose request to
    the service fails, and the dispatcher recognises it as an error with
    code and message.  It is not applied to the one call made outside the
    instance: when the image download of [getTaskScreenshot] fails, the
    operation rejects with the error of the HTTP layer unreduced. *)
Theorem handleApiError_reduction :
  (forall error : AxiosError,
     let e := handleApiError error in
     WebvizioMcpServer.isMcpError (ThrownValue e) = true /\
     match response error with
     | Some resp =>
         get_prop e "code" = JNum (status resp) /\
         get_prop e "details" = data resp /\
         get_prop e "message" =
           match fixed_message (status resp) with
           | Some m => JStr m
           | None => extracted_message resp
           end
     | None =>
         get_prop e "code" = (if request error then JNum 0 else JNum (-1))
     end) /\
  (forall (w : World) (config : WebvizioConfig) (m : Method) (url : string)
          (body : option JsVal),
     snd (run w (client_call config m url body)) =
     match api w (instance_request config m url body) with
     | Answered resp => Resolved resp
     | Failed error => Rejected (ThrownValue (handleApiError error))
     end) /\
  (forall (config : WebvizioConfig) (op : Operation) (id : string) (w : World)
          (error : AxiosError),
     api w (operation_request config op id) = Failed error ->
     run w (perform config op id) =
     ([operation_request config op id],
      if is_getTasks op &&
         carries_project_not_found (get_prop (handleApiError error) "details")
      then Resolved (JBool false)
      else Rejected (ThrownValue (handleApiError error)))) /\
  (forall (config : WebvizioConfig) (id : string) (w : World)
          (meta : AxiosResponse JsVal) (error : AxiosError),
     api w (operation_request config op_getTaskScreenshot id) = Answered meta ->
     truthy (opt_chain (data meta) "screenshot") = true ->
     fetch w (plain_request (get_prop (data meta) "screenshot")) = Failed error ->
     run w (perform config op_getTaskScreenshot id) =
     ([operation_request config op_getTaskScreenshot id;
       plain_request (get_prop (data meta) "screenshot")],
      Rejected (AxiosError_thrown error))).
Proof.
  split; [| split; [| split; [exact operation_failure | exact download_failure]]].
  - intros error e. subst e.
    split; [apply reduction_isMcpError |].
    destruct (response error) as [resp |] eqn:R.
    + rewrite (handleApiError_response _ _ R). repeat split; reflexivity.
    + rewrite (handleApiError_no_response _ R). now destruct (request error).
  - intros. rewrite run_client_call. reflexivity.
Qed.

Lemma handleApiError_reduction_witness :
  run (answering unreachable) (perform config0 op_closeTask "t-1") =
  ([operation_request config0 op_closeTask "t-1"],
   Rejected (ThrownValue
               (McpError 0 (JStr "Network Error: Unable to reach Webvizio API")
                  (JObj [("originalError", JStr "connect ECONNREFUSED")])))) /\
  run world_download_404 (perform config0 op_getTaskScreenshot "t-1") =
  ([operation_request config0 op_getTaskScreenshot "t-1";
    plain_request (JStr "https://cdn.example/s.png")],
   Rejected (AxiosError_thrown download_404)) /\
  get_prop (handleApiError teapot) "message" = JStr "HTTP 418: I'm a teapot".
Proof.
  destruct handleApiError_reduction as (Table & _ & Operations & Download).
  split; [| split].
  - exact (Operations config0 op_closeTask "t-1" (answering unreachable) _ eq_refl).
  - exact (Download config0 "t-1" world_download_404
             {| status := 200; statusText := "OK";
                data := JObj [("screenshot", JStr "https://cdn.example/s.png")] |}
             download_404 eq_refl eq_refl eq_refl).
  - exact (proj2 (proj2 (proj2 (Table teapot)))).
Defined.

(** C1, as stated, fails for the image download of [getTaskScreenshot].
    The download is answered with status 404, so a response was received;
    yet what the operation rejects with is not the reduction of that
    failure: its code is the string tag of the HTTP layer, not the status
    404, and it carries no details. *)
Lemma unreduced_download_counterexample :
  fetch world_download_404 (plain_request (JStr "https://cdn.example/s.png")) =
    Failed download_404 /\
  option_map status (response download_404) = Some 404 /\
  run world_download_404 (perform config0 op_getTaskScreenshot "t-1") =
    ([operation_request config0 op_getTaskScreenshot "t-1";
      plain_request (JStr "https://cdn.example/s.png")],
     Rejected (AxiosError_thrown download_404)) /\
  AxiosError_thrown download_404 <> ThrownValue (handleApiError download_404) /\
  thrown_prop (AxiosError_thrown download_404) "code" = JStr "ERR_BAD_REQUEST" /\
  thrown_prop (AxiosError_thrown download_404) "details" = JUndefined /\
  get_prop (handleApiError download_404) "code" = JNum 404.
Proof.
  repeat split. discriminate.
Qed.

End AdapterFacts.

(* ===================================================================== *)
(** ** The dispatcher: rendering of errors *)
(* ===================================================================== *)

Module ServerFacts.
Import WebvizioClient AdapterFacts.

Lemma handleError_McpError (c : Z) (m : string) (d : JsVal) (toolName : string) :
  handleError (ThrownValue (McpError c (JStr m) d)) toolName =
  Ret (error_response
         ("Error " ++ Number_toString c ++ ": " ++ m ++ details_block d)).
Proof. reflexivity. Qed.

Lemma handleError_Error (e : JsError) (toolName : string) :
  error_code e = None ->
  handleError (ThrownError e) toolName =
  Ret (error_response ("Error: " ++ error_message e)).
Proof.
  intros H. unfold handleError, WebvizioMcpServer.isMcpError. cbn.
  rewrite H. reflexivity.
Qed.

(** [handleError] awaits nothing. *)
Lemma handleError_no_request (w : World) (error : Thrown) (toolName : string) :
  fst (run w (handleError error toolName)) = [].
Proof.
  unfold handleError.
  destruct (WebvizioMcpServer.isMcpError error); [| reflexivity].
  unfold ToString.
  destruct (to_string (thrown_prop error "code")); [| reflexivity].
  destruct (to_string (thrown_prop error "message")); reflexivity.
Qed.

Ltac unfold_tool :=
  unfold server, handler, get_projects_handler, get_current_project_handler,
    set_project_handler, get_tasks_handler, get_task_description_handler,
    get_task_prompt_handler, get_task_console_logs_handler,
    get_task_network_logs_handler, get_task_action_logs_handler,
    get_task_screenshot_handler, close_task_handler;
  cbn [new_WebvizioClient WebvizioMcpServer.getProjects
       WebvizioMcpServer.getCurrentProject WebvizioMcpServer.setProject
       WebvizioMcpServer.getTaskPrompt WebvizioMcpServer.getTaskDescription
       WebvizioMcpServer.getTaskConsoleLogs WebvizioMcpServer.getTaskNetworkLogs
       WebvizioMcpServer.getTaskActionLogs WebvizioMcpServer.getTaskScreenshot
       WebvizioMcpServer.closeTask WebvizioMcpServer.getTasks];
  unfold WebvizioClient.getProjects, WebvizioClient.getCurrentProject,
    WebvizioClient.setProject, WebvizioClient.getTaskPrompt,
    WebvizioClient.getTaskDescription, WebvizioClient.getTaskConsoleLogs,
    WebvizioClient.getTaskNetworkLogs, WebvizioClient.getTaskActionLogs,
    WebvizioClient.getTaskScreenshot, WebvizioClient.closeTask,
    client_get, client_post;
  cbn [task_uuid set_uuid].

(** When the first request of a tool other than [get_tasks] fails, the
    handler answers with [handleError]'s rendering of the reduced error. *)
Lemma failed_request_is_handled (config : WebvizioConfig) (t : ToolName)
      (args : Args) (w : World) (error : AxiosError) :
  t <> get_tasks ->
  (t = set_project -> uuid args <> "") ->
  api w (tool_request config t args) = Failed error ->
  run w (server config t args) =
  (tool_request config t args ::
     fst (run w (handleError (ThrownValue (handleApiError error)) (tool_name t))),
   snd (run w (handleError (ThrownValue (handleApiError error)) (tool_name t)))).
Proof.
  intros NT NE H.
  destruct t; try congruence; unfold tool_request in H; unfold_tool;
    rewrite run_try_catch.
  all: try (rewrite run_bind, run_adapter_call, H;
            cbn [tool_request tool_name app];
            destruct (run w (handleError _ _)); reflexivity).
  (* set_project *)
  cbn [truthy]. destruct (String.eqb_spec (uuid args) "") as [E | _].
  - now elim NE.
  - cbn [negb]. rewrite run_bind, run_adapter_call, H.
    cbn [tool_request tool_name app].
    destruct (run w (handleError _ _)); reflexivity.
Qed.

(** [set_project] with an empty uuid is refused before the adapter is
    called. *)
Lemma set_project_empty_uuid (webvizioClient : Client) (args : Args) (w : World) :
  uuid args = "" ->
  run w (set_project_handler webvizioClient args) =
  ([], Resolved (error_response "Error: project uuid is required")).
Proof.
  intros E. unfold set_project_handler. rewrite E. reflexivity.
Qed.

(** *** The 401 answer *)

Lemma handleApiError_401 (error : AxiosError) (resp : AxiosResponse JsVal) :
  response error = Some resp ->
  status resp = 401%Z ->
  handleApiError error =
  McpError 401 (JStr "Unauthorized: Invalid or missing API key") (data resp).
Proof.
  intros R S. rewrite (handleApiError_response _ _ R), S.
  reflexivity.
Qed.

Lemma prefix_append (s t : string) : String.prefix s (s ++ t) = true.
Proof.
  induction s as [| c s IH]; cbn.
  - now destruct t.
  - destruct (ascii_dec c c) as [_ | N]; [exact IH | now elim N].
Qed.

Lemma unauthorized_text_reports (body : JsVal) :
  reports_401 (Resolved (error_response (unauthorized_text body))).
Proof.
  exists (unauthorized_text body). split; [reflexivity |].
  apply prefix_append.
Qed.

(** C3, as the code has it.  When the remote service answers 401 and the
    invocation reaches it, every tool yields an error response whose text
    is "Error 401: Unauthorized: Invalid or missing API key" followed by
    the details block of the response body; the one exception is
    [get_tasks] when that body carries the message "Project not found",
    which yields the project-selection hint, not marked as an error. *)
Theorem unauthorized_is_reported (config : WebvizioConfig) (t : ToolName)
        (args : Args) (w : World) :
  answers_401 w ->
  fst (run w (server config t args)) <> [] ->
  let body := body_of (api w (tool_request config t args)) in
  run w (server config t args) =
  ([tool_request config t args],
   Resolved (if is_get_tasks t && carries_project_not_found body
             then text_response no_project_selected
             else error_response (unauthorized_text body))).
Proof.
  intros A Reached body. subst body.
  destruct (A (tool_request config t args)) as (error & resp & Ha & Hr & Hs).
  pose proof (handleApiError_401 _ _ Hr Hs) as E.
  rewrite Ha. cbn [body_of]. rewrite Hr.
  destruct (ToolName_eq_dec t get_tasks) as [-> | NT].
  - unfold server, handler, get_tasks_handler.
    cbn [WebvizioMcpServer.getTasks new_WebvizioClient].
    rewrite run_try_catch, run_bind, run_getTasks.
    cbn [tool_request] in Ha. rewrite Ha, E.
    cbn [is_get_tasks andb tool_request].
    change (get_prop (McpError 401 (JStr "Unauthorized: Invalid or missing API key")
                        (data resp)) "details") with (data resp).
    destruct (carries_project_not_found (data resp)); reflexivity.
  - assert (NE : t = set_project -> uuid args <> "").
    { intros -> U. apply Reached. unfold server, handler.
      now rewrite set_project_empty_uuid. }
    rewrite (failed_request_is_handled config t args w error NT NE Ha), E.
    rewrite handleError_McpError.
    replace (is_get_tasks t) with false by (destruct t; (reflexivity || congruence)).
    reflexivity.
Qed.

Lemma unauthorized_is_reported_witness :
  run (answering (http_error 401 "Unauthorized" (JObj [("error", JStr "bad key")])))
      (server config0 close_task {| uuid := "t-1" |}) =
  ([tool_request config0 close_task {| uuid := "t-1" |}],
   Resolved (error_response
     ("Error 401: Unauthorized: Invalid or missing API key" ++ nl ++
      "Details: {" ++ nl ++ "  " ++ dquote ++ "error" ++ dquote ++ ": " ++
      dquote ++ "bad key" ++ dquote ++ nl ++ "}"))).
Proof.
  apply (unauthorized_is_reported config0 close_task {| uuid := "t-1" |}
           (answering (http_error 401 "Unauthorized" (JObj [("error", JStr "bad key")])))).
  - intros r. eexists. eexists. repeat split.
  - vm_compute. discriminate.
Defined.

(** C3, as stated, fails for [get_tasks]: a 401 answer whose body carries
    the message "Project not found" is turned into the project-selection
    hint, which is not marked as an error. *)
Lemma unauthorized_get_tasks_counterexample :
  answers_401 world_401_project_not_found /\
  run world_401_project_not_found (server config0 get_tasks {| uuid := "" |}) =
  ([tool_request config0 get_tasks {| uuid := "" |}],
   Resolved {| content := [TextContent no_project_selected]; isError := false |}) /\
  ~ reports_401
      (snd (run world_401_project_not_found (server config0 get_tasks {| uuid := "" |}))).
Proof.
  split; [| split].
  - intros r. eexists. eexists. repeat split.
  - reflexivity.
  - intros [text [E _]]. discriminate E.
Qed.

(** *** get_tasks and "Project not found" *)

(** A failure whose details carry the message "Project not found" makes the
    adapter return [false] and the tool answer with the hint. *)
Lemma get_tasks_project_not_found (config : WebvizioConfig) (args : Args)
      (w : World) (error : AxiosError) :
  api w (tool_request config get_tasks args) = Failed error ->
  carries_project_not_found (get_prop (handleApiError error) "details") = true ->
  run w (WebvizioClient.getTasks config) =
    ([tool_request config get_tasks args], Resolved (JBool false)) /\
  run w (server config get_tasks args) =
    ([tool_request config get_tasks args],
     Resolved (text_response no_project_selected)).
Proof.
  intros Ha Hp. cbn [tool_request] in *.
  assert (R : run w (WebvizioClient.getTasks config) =
              ([instance_request config GET "/tasks" None], Resolved (JBool false))).
  { rewrite run_getTasks, Ha, Hp. reflexivity. }
  split; [exact R |].
  unfold server, handler, get_tasks_handler.
  cbn [WebvizioMcpServer.getTasks new_WebvizioClient].
  rewrite run_try_catch, run_bind, R. reflexivity.
Qed.

(** Any other failure of the request is thrown on unchanged and handed to
    [handleError]. *)
Lemma get_tasks_other_failure (config : WebvizioConfig) (args : Args)
      (w : World) (error : AxiosError) :
  api w (tool_request config get_tasks args) = Failed error ->
  carries_project_not_found (get_prop (handleApiError error) "details") = false ->
  run w (WebvizioClient.getTasks config) =
    ([tool_request config get_tasks args],
     Rejected (ThrownValue (handleApiError error))) /\
  run w (server config get_tasks args) =
    ([tool_request config get_tasks args],
     snd (run w (handleError (ThrownValue (handleApiError error)) "get_tasks"))).
Proof.
  intros Ha Hp. cbn [tool_request] in *.
  assert (R : run w (WebvizioClient.getTasks config) =
              ([instance_request config GET "/tasks" None],
               Rejected (ThrownValue (handleApiError error)))).
  { rewrite run_getTasks, Ha, Hp. reflexivity. }
  split; [exact R |].
  unfold server, handler, get_tasks_handler.
  cbn [WebvizioMcpServer.getTasks new_WebvizioClient].
  rewrite run_try_catch, run_bind, R.
  pose proof (handleError_no_request w (ThrownValue (handleApiError error))
                "get_tasks") as N.
  destruct (run w (handleError _ _)) as [t' s']. cbn [fst snd] in *. now subst t'.
Qed.

(** *** Handlers over an arbitrary adapter *)

Section AnyClient.

Variable webvizioClient : Client.
Variable w : World.



(** The branch of the log tools for a falsy adapter result. *)
Lemma log_tools_falsy_result (args : Args) (t : list HttpRequest) (logs : JsVal) :
  truthy logs = false ->
  (run w (WebvizioMcpServer.getTaskConsoleLogs webvizioClient
            {| task_uuid := uuid args |}) = (t, Resolved logs) ->
   run w (get_task_console_logs_handler webvizioClient args) =
   (t, Resolved (text_response "No console logs found"))) /\
  (run w (WebvizioMcpServer.getTaskNetworkLogs webvizioClient
            {| task_uuid := uuid args |}) = (t, Resolved logs) ->
   run w (get_task_network_logs_handler webvizioClient args) =
   (t, Resolved (text_response "No network logs found"))) /\
  (run w (WebvizioMcpServer.getTaskActionLogs webvizioClient
            {| task_uuid := uuid args |}) = (t, Resolved logs) ->
   run w (get_task_action_logs_handler webvizioClient args) =
   (t, Resolved (text_response "No action logs found"))).
Proof.
  intros F. repeat split; intros H;
    unfold get_task_console_logs_handler, get_task_network_logs_handler,
      get_task_action_logs_handler;
    rewrite run_try_catch, run_bind, H, F; cbn [negb run];
    now rewrite app_nil_r.
Qed.

(** Every handler is a [try] block whose [catch] calls [handleError] with
    the tool's own name. *)
Lemma handler_is_guarded (t : ToolName) (args : Args) :
  exists body : Prog ToolResponse,
    handler webvizioClient t args =
    try_catch body (fun error => handleError error (tool_name t)).
Proof. destruct t; eexists; reflexivity. Qed.

End AnyClient.

(** What [handleError] resolves to is marked as an error. *)
Lemma handleError_marks_error (w : World) (error : Thrown) (toolName : string)
      (resp : ToolResponse) :
  snd (run w (handleError error toolName)) = Resolved resp ->
  isError resp = true.
Proof.
  unfold handleError.
  destruct (WebvizioMcpServer.isMcpError error).
  - unfold ToString.
    destruct (to_string (thrown_prop error "code")); [| discriminate].
    destruct (to_string (thrown_prop error "message")); [| discriminate].
    cbn. intros [= <-]. reflexivity.
  - cbn. intros [= <-]. reflexivity.
Qed.

(** [handleError] returns whenever the code and the message of the error
    convert to text: "Error <code>: <message>" with the details block for
    an error with both fields, "Error: <message>" or
    "Error: Unknown error occurred" otherwise. *)
Lemma handleError_renders (error : Thrown) (toolName : string) (c m : string) :
  to_string (thrown_prop error "code") = Some c ->
  to_string (thrown_prop error "message") = Some m ->
  handleError error toolName =
  Ret (error_response
         (if WebvizioMcpServer.isMcpError error
          then "Error " ++ c ++ ": " ++ m ++ details_block (thrown_prop error "details")
          else "Error: " ++ (if instanceof_Error error then m
                             else "Unknown error occurred"))).
Proof.
  intros C M. unfold handleError.
  destruct (WebvizioMcpServer.isMcpError error).
  - unfold ToString. rewrite C, M. reflexivity.
  - destruct error as [v | e]; cbn [instanceof_Error]; [reflexivity |].
    cbn in M. injection M as <-. reflexivity.
Qed.

(** [handleError] rejects only with the [TypeError] of a conversion of the
    code or the message of an error that has both fields. *)
Lemma handleError_rejection (w : World) (error : Thrown) (toolName : string)
      (e : Thrown) :
  snd (run w (handleError error toolName)) = Rejected e ->
  e = new_TypeError "Cannot convert object to primitive value" /\
  WebvizioMcpServer.isMcpError error = true /\
  (to_string (thrown_prop error "code") = None \/
   to_string (thrown_prop error "message") = None).
Proof.
  unfold handleError.
  destruct (WebvizioMcpServer.isMcpError error); [| discriminate].
  unfold ToString.
  destruct (to_string (thrown_prop error "code")).
  - destruct (to_string (thrown_prop error "message")); [discriminate |].
    cbn. intros [= <-]. auto.
  - cbn. intros [= <-]. auto.
Qed.

(** Whatever an adapter does and throws, among the plain values and
    the [Error] instances of [Thrown], a handler resolves or rejects with
    that [TypeError]: nothing the adapter throws passes through. *)
Lemma handler_rejection (webvizioClient : Client) (t : ToolName) (args : Args)
      (w : World) (e : Thrown) :
  snd (run w (handler webvizioClient t args)) = Rejected e ->
  e = new_TypeError "Cannot convert object to primitive value".
Proof.
  destruct (handler_is_guarded webvizioClient t args) as [body ->].
  rewrite run_try_catch.
  destruct (run w body) as [tr [a | e']]; cbn [snd]; [discriminate |].
  destruct (run w (handleError e' (tool_name t))) as [tr' s'] eqn:R.
  cbn [snd]. intros ->.
  apply (handleError_rejection w e' (tool_name t)). now rewrite R.
Qed.

(** A response produced after the body of a handler threw is marked as an
    error. *)
Lemma handler_failure_is_marked (webvizioClient : Client) (t : ToolName)
      (args : Args) (w : World) (body : Prog ToolResponse)
      (tr : list HttpRequest) (e : Thrown) (resp : ToolResponse) :
  handler webvizioClient t args =
    try_catch body (fun error => handleError error (tool_name t)) ->
  run w body = (tr, Rejected e) ->
  snd (run w (handler webvizioClient t args)) = Resolved resp ->
  isError resp = true.
Proof.
  intros -> B. rewrite run_try_catch, B.
  destruct (run w (handleError e (tool_name t))) as [tr' s'] eqn:R.
  cbn [snd]. intros ->.
  apply (handleError_marks_error w e (tool_name t)). now rewrite R.
Qed.



(** *** The log tools on an empty payload *)

Lemma opt_chain_truthy (v : JsVal) (k : string) :
  truthy (opt_chain v k) = true -> opt_chain v k = get_prop v k.
Proof. unfold opt_chain. destruct (nullish v); [discriminate | reflexivity]. Qed.

(** The adapter's log operations never return a falsy value: an empty
    payload is thrown as an [Error] instead. *)
Lemma adapter_logs_never_falsy (config : WebvizioConfig) (w : World)
      (req : WebvizioGetTaskRequest) (t : list HttpRequest) (logs : JsVal) :
  (run w (WebvizioClient.getTaskConsoleLogs config req) = (t, Resolved logs) \/
   run w (WebvizioClient.getTaskNetworkLogs config req) = (t, Resolved logs) \/
   run w (WebvizioClient.getTaskActionLogs config req) = (t, Resolved logs)) ->
  truthy logs = true.
Proof.
  unfold WebvizioClient.getTaskConsoleLogs, WebvizioClient.getTaskNetworkLogs,
    WebvizioClient.getTaskActionLogs, client_get.
  rewrite !run_adapter_call.
  intros [H | [H | H]];
    (destruct (api w _) as [resp | error]; [| discriminate H];
     destruct (truthy (opt_chain (data resp) "prompt")) eqn:T;
     cbn [negb run] in H; [| discriminate H];
     injection H as _ <-; now rewrite <- (opt_chain_truthy _ _ T)).
Qed.

Lemma empty_payload_is_thrown (config : WebvizioConfig) (t : ToolName)
      (args : Args) (w : World) (resp : AxiosResponse JsVal) :
  In t [get_task_console_logs; get_task_network_logs; get_task_action_logs] ->
  api w (tool_request config t args) = Answered resp ->
  truthy (opt_chain (data resp) "prompt") = false ->
  run w (server config t args) =
  ([tool_request config t args], Resolved (error_response (log_tool_failure t))).
Proof.
  intros T Ha F.
  destruct T as [<- | [<- | [<- | []]]]; cbn [tool_request] in Ha; unfold_tool;
    rewrite run_try_catch, run_bind, run_adapter_call, Ha, F; reflexivity.
Qed.

(** C5, what holds and where the code falls short.  Each log handler
    answers a falsy adapter result with "No console logs found" /
    "No network logs found" / "No action logs found", not marked as an
    error.  But the shipped adapter never returns a falsy result: when the
    request succeeds and the payload is empty it throws, and the tool
    answers with the error response "Error: Failed to get ... logs prompt". *)
Theorem log_tools_on_empty_payload :
  (forall (webvizioClient : Client) (w : World) (args : Args)
          (t : list HttpRequest) (logs : JsVal),
     truthy logs = false ->
     (run w (WebvizioMcpServer.getTaskConsoleLogs webvizioClient
               {| task_uuid := uuid args |}) = (t, Resolved logs) ->
      run w (get_task_console_logs_handler webvizioClient args) =
      (t, Resolved (text_response "No console logs found"))) /\
     (run w (WebvizioMcpServer.getTaskNetworkLogs webvizioClient
               {| task_uuid := uuid args |}) = (t, Resolved logs) ->
      run w (get_task_network_logs_handler webvizioClient args) =
      (t, Resolved (text_response "No network logs found"))) /\
     (run w (WebvizioMcpServer.getTaskActionLogs webvizioClient
               {| task_uuid := uuid args |}) = (t, Resolved logs) ->
      run w (get_task_action_logs_handler webvizioClient args) =
      (t, Resolved (text_response "No action logs found")))) /\
  (forall (config : WebvizioConfig) (w : World) (req : WebvizioGetTaskRequest)
          (t : list HttpRequest) (logs : JsVal),
     (run w (WebvizioClient.getTaskConsoleLogs config req) = (t, Resolved logs) \/
      run w (WebvizioClient.getTaskNetworkLogs config req) = (t, Resolved logs) \/
      run w (WebvizioClient.getTaskActionLogs config req) = (t, Resolved logs)) ->
     truthy logs = true) /\
  (forall (config : WebvizioConfig) (t : ToolName) (args : Args) (w : World)
          (resp : AxiosResponse JsVal),
     In t [get_task_console_logs; get_task_network_logs; get_task_action_logs] ->
     api w (tool_request config t args) = Answered resp ->
     truthy (opt_chain (data resp) "prompt") = false ->
     run w (server config t args) =
     ([tool_request config t args],
      Resolved (error_response (log_tool_failure t)))).
Proof.
  split; [exact log_tools_falsy_result |].
  split; [exact adapter_logs_never_falsy | exact empty_payload_is_thrown].
Qed.

Lemma log_tools_on_empty_payload_witness :
  run (answering unreachable)
      (get_task_console_logs_handler (stub_client (JStr "")) {| uuid := "t-1" |}) =
    ([], Resolved (text_response "No console logs found")) /\
  truthy (JStr "TypeError at app.js:3") = true /\
  run (answering (http_ok (JObj [("prompt", JStr "")])))
      (server config0 get_task_console_logs {| uuid := "t-1" |}) =
    ([tool_request config0 get_task_console_logs {| uuid := "t-1" |}],
     Resolved (error_response "Error: Failed to get console logs prompt")).
Proof.
  destruct log_tools_on_empty_payload as (Branch & Never & Throws).
  split; [| split].
  - exact (proj1 (Branch (stub_client (JStr "")) (answering unreachable)
                    {| uuid := "t-1" |} [] (JStr "") eq_refl) eq_refl).
  - exact (Never config0
             (answering (http_ok (JObj [("prompt", JStr "TypeError at app.js:3")])))
             {| task_uuid := "t-1" |}
             [tool_request config0 get_task_console_logs {| uuid := "t-1" |}]
             (JStr "TypeError at app.js:3") (or_introl eq_refl)).
  - exact (Throws config0 get_task_console_logs {| uuid := "t-1" |}
             (answering (http_ok (JObj [("prompt", JStr "")])))
             {| status := 200; statusText := "OK"; data := JObj [("prompt", JStr "")] |}
             (or_introl eq_refl) eq_refl eq_refl).
Defined.

(** *** Which request a tool dispatches first *)

Lemma trace_head_bind {A B : Type} (w : World) (p : Prog A) (f : A -> Prog B)
      (r : HttpRequest) (rest : list HttpRequest) :
  fst (run w p) = r :: rest ->
  exists rest', fst (run w (bind p f)) = r :: rest'.
Proof.
  intros H. rewrite run_bind.
  destruct (run w p) as [t [a | e]]; cbn [fst] in H; subst t.
  - destruct (run w (f a)) as [t' s']. eexists. reflexivity.
  - eexists. reflexivity.
Qed.

Lemma trace_head_try_catch {A : Type} (w : World) (p : Prog A)
      (h : Thrown -> Prog A) (r : HttpRequest) (rest : list HttpRequest) :
  fst (run w p) = r :: rest ->
  exists rest', fst (run w (try_catch p h)) = r :: rest'.
Proof.
  intros H. rewrite run_try_catch.
  destruct (run w p) as [t [a | e]]; cbn [fst] in H; subst t.
  - eexists. reflexivity.
  - destruct (run w (h e)) as [t' s']. eexists. reflexivity.
Qed.

Lemma trace_head_adapter_call {A : Type} (w : World) (config : WebvizioConfig)
      (m : Method) (url : string) (body : option JsVal)
      (f : AxiosResponse JsVal -> Prog A) :
  exists rest,
    fst (run w (log_and_rethrow (bind (client_call config m url body) f))) =
    instance_request config m url body :: rest.
Proof.
  rewrite run_adapter_call. destruct (api w _) as [resp | error].
  - destruct (run w (f resp)). eexists. reflexivity.
  - eexists. reflexivity.
Qed.

(** From the first request of the adapter call to that of the handler
    [try { x = await call; ... } catch ...]. *)
Ltac lift_head_from H1 :=
  match goal with
  | |- exists _, fst (run ?w (try_catch (bind ?p ?g) ?h)) = _ =>
      let rest2 := fresh "rest" in
      let H2 := fresh "H" in
      let rest3 := fresh "rest" in
      let H3 := fresh "H" in
      destruct (trace_head_bind w p g _ _ H1) as [rest2 H2];
      destruct (trace_head_try_catch w _ h _ _ H2) as [rest3 H3];
      exists rest3; exact H3
  end.

Ltac lift_head :=
  match goal with
  | |- context [run ?w (try_catch
                          (bind (log_and_rethrow
                                   (bind (client_call ?c ?m ?u ?b) ?f)) _) _)] =>
      let rest1 := fresh "rest" in
      let H1 := fresh "H" in
      destruct (trace_head_adapter_call w c m u b f) as [rest1 H1];
      lift_head_from H1
  end.

(** Every tool except [set_project] with an empty uuid calls the adapter,
    which dispatches the tool's request. *)
Lemma tool_dispatches_request (config : WebvizioConfig) (t : ToolName)
      (args : Args) (w : World) :
  (t = set_project -> uuid args <> "") ->
  exists rest,
    fst (run w (server config t args)) = tool_request config t args :: rest.
Proof.
  intros NE.
  destruct t; cbn [tool_request]; unfold_tool.
  3: { (* set_project *)
    cbn [truthy].
    destruct (String.eqb_spec (uuid args) "") as [E | _]; [now elim NE |].
    cbn [negb]. lift_head. }
  3: { (* get_tasks *)
    cbn [new_WebvizioClient WebvizioMcpServer.getTasks].
    assert (H1 : fst (run w (WebvizioClient.getTasks config)) =
                 [instance_request config GET "/tasks" None])
      by (rewrite run_getTasks; reflexivity).
    lift_head_from H1. }
  all: lift_head.
Qed.

(** C6, what the code does.  An empty identifier stops [set_project] only:
    each of the other seven task-scoped tools calls the adapter, which
    dispatches the request with the empty identifier in its path. *)
Theorem empty_uuid_reaches_the_service (config : WebvizioConfig) (w : World) :
  run w (server config set_project {| uuid := "" |}) =
    ([], Resolved (error_response "Error: project uuid is required")) /\
  Forall (fun t =>
            exists rest,
              fst (run w (server config t {| uuid := "" |})) =
              tool_request config t {| uuid := "" |} :: rest)
         [get_task_description; get_task_prompt; get_task_console_logs;
          get_task_network_logs; get_task_action_logs; get_task_screenshot;
          close_task].
Proof.
  split.
  - unfold server, handler. now apply set_project_empty_uuid.
  - repeat constructor; apply tool_dispatches_request; discriminate.
Qed.

(** *** The screenshot *)

(** C7. When the metadata request succeeds with an image URL in its
    [screenshot] field and the fetch of that URL succeeds with bytes [b],
    the tool makes exactly two calls: the first through the instance to
    the screenshot path of the task, the second a GET of that URL without
    headers or base URL and with response type [arraybuffer]; it returns
    one image item of MIME type image/png whose data is a base64 string
    that decodes to [b]. *)
Theorem screenshot_round_trip (config : WebvizioConfig) (args : Args) (w : World)
        (meta : AxiosResponse JsVal) (url : string)
        (image : AxiosResponse (list byte)) :
  api w (tool_request config get_task_screenshot args) = Answered meta ->
  get_prop (data meta) "screenshot" = JStr url ->
  url <> "" ->
  fetch w (plain_request (JStr url)) = Answered image ->
  run w (server config get_task_screenshot args) =
    ([tool_request config get_task_screenshot args; plain_request (JStr url)],
     Resolved {| content := [ImageContent (JStr (toString_base64 (data image)))
                               "image/png"];
                 isError := false |}) /\
  Base64.decode (toString_base64 (data image)) = Some (data image) /\
  req_headers (plain_request (JStr url)) = [] /\
  req_baseURL (plain_request (JStr url)) = None /\
  req_responseType (plain_request (JStr url)) = arraybuffer /\
  req_method (plain_request (JStr url)) = GET /\
  req_url (plain_request (JStr url)) = JStr url /\
  req_data (plain_request (JStr url)) = None /\
  req_method (tool_request config get_task_screenshot args) = GET /\
  req_url (tool_request config get_task_screenshot args) =
    JStr ("/task/" ++ uuid args ++ "/screenshot") /\
  req_baseURL (tool_request config get_task_screenshot args) = Some (baseUrl config) /\
  In ("Authorization", "Bearer " ++ apiKey config)
     (req_headers (tool_request config get_task_screenshot args)).
Proof.
  intros Hm Hu NE Hf.
  split; [| split; [apply Base64Facts.decode_encode |
                    repeat split; left; reflexivity]].
  cbn [tool_request] in Hm. unfold_tool.
  rewrite run_try_catch, run_bind, run_adapter_call, Hm.
  assert (O : opt_chain (data meta) "screenshot" = JStr url).
  { unfold opt_chain. destruct (data meta); try exact Hu; discriminate Hu. }
  rewrite O, Hu. cbn [truthy].
  destruct (String.eqb_spec url "") as [E | _]; [now elim NE |].
  cbn [negb bind axios_get_arraybuffer run]. rewrite Hf. reflexivity.
Qed.

Lemma screenshot_round_trip_witness :
  run (world_screenshot [x89; x50; x4e; x47; x0d; x0a; x1a; x0a])
      (server config0 get_task_screenshot {| uuid := "t-1" |}) =
    ([tool_request config0 get_task_screenshot {| uuid := "t-1" |};
      plain_request (JStr "https://cdn.example/s.png")],
     Resolved {| content := [ImageContent (JStr "iVBORw0KGgo=") "image/png"];
                 isError := false |}) /\
  Base64.decode "iVBORw0KGgo=" = Some [x89; x50; x4e; x47; x0d; x0a; x1a; x0a] /\
  req_url (plain_request (JStr "https://cdn.example/s.png")) =
    JStr "https://cdn.example/s.png" /\
  req_url (tool_request config0 get_task_screenshot {| uuid := "t-1" |}) =
    JStr "/task/t-1/screenshot".
Proof.
  destruct (screenshot_round_trip config0 {| uuid := "t-1" |}
              (world_screenshot [x89; x50; x4e; x47; x0d; x0a; x1a; x0a])
              {| status := 200; statusText := "OK";
                 data := JObj [("screenshot", JStr "https://cdn.example/s.png")] |}
              "https://cdn.example/s.png"
              {| status := 200; statusText := "OK";
                 data := [x89; x50; x4e; x47; x0d; x0a; x1a; x0a] |}
              eq_refl eq_refl ltac:(discriminate) eq_refl)
    as (R & D & _ & _ & _ & _ & U & _ & _ & P & _).
  split; [exact R | split; [exact D | split; [exact U | exact P]]].
Defined.

(** *** get_tasks: when the hint is emitted *)

Lemma found_is_not_the_hint (n rest : string) :
  text_response ("Found " ++ n ++ rest) <> text_response no_project_selected.
Proof. cbn. discriminate. Qed.

(** C10.  Given the adapter's result, the [get_tasks] handler emits the
    hint "No project selected. ..." exactly when the result is falsy or a
    boolean, and renders an array as "Found <n> tasks:", with [n] the
    number of its elements (at most 2^32 - 1, as for every array),
    followed by its pretty-printed form; with the shipped adapter, a
    successful body [true] yields the hint. *)
Theorem get_tasks_hint :
  (forall (webvizioClient : Client) (w : World) (t : list HttpRequest)
          (tasks : JsVal),
     run w (WebvizioMcpServer.getTasks webvizioClient) = (t, Resolved tasks) ->
     (negb (truthy tasks) || typeof_boolean tasks = true <->
      run w (get_tasks_handler webvizioClient) =
      (t, Resolved (text_response "No project selected. You need to get the list of projects via get_projects tool select the uuid of the required project and set it using set_project tool"))) /\
     (forall items : list JsVal,
        tasks = JArr items ->
        (Z.of_nat (List.length items) <= 4294967295)%Z ->
        run w (get_tasks_handler webvizioClient) =
        (t, Resolved (text_response
                        ("Found " ++ show_nat (List.length items) ++ " tasks:" ++
                         nl ++ nl ++ JSON_stringify tasks))))) /\
  (forall (config : WebvizioConfig) (args : Args) (w : World)
          (resp : AxiosResponse JsVal),
     api w (tool_request config get_tasks args) = Answered resp ->
     data resp = JBool true ->
     run w (server config get_tasks args) =
     ([tool_request config get_tasks args],
      Resolved (text_response "No project selected. You need to get the list of projects via get_projects tool select the uuid of the required project and set it using set_project tool"))).
Proof.
  change "No project selected. You need to get the list of projects via get_projects tool select the uuid of the required project and set it using set_project tool" with no_project_selected.
  split.
  - intros webvizioClient w t tasks H.
    unfold get_tasks_handler. rewrite run_try_catch, run_bind, H.
    split.
    + destruct (negb (truthy tasks) || typeof_boolean tasks) eqn:B.
      * cbn [run]. rewrite app_nil_r. split; reflexivity.
      * split; [discriminate |]. intros R. exfalso.
        assert (NN : nullish tasks = false) by (destruct tasks; try reflexivity; discriminate B).
        assert (M : member tasks "length" = Ret (get_prop tasks "length"))
          by (destruct tasks; try reflexivity; discriminate NN).
        rewrite M in R. cbn [bind] in R. unfold ToString in R.
        destruct (to_string (get_prop tasks "length")) as [n |].
        -- cbn [bind run] in R. rewrite app_nil_r in R.
           apply (found_is_not_the_hint n
                    (" tasks:" ++ nl ++ nl ++ JSON_stringify tasks)).
           congruence.
        -- cbn [bind run] in R. cbn in R. discriminate R.
    + intros items -> L. cbn [truthy typeof_boolean negb orb member bind].
      unfold ToString. rewrite (JsFacts.length_to_string items L).
      cbn [bind run]. now rewrite app_nil_r.
  - intros config args w resp Ha D. cbn [tool_request] in *.
    unfold server, handler, get_tasks_handler.
    cbn [new_WebvizioClient WebvizioMcpServer.getTasks].
    rewrite run_try_catch, run_bind, run_getTasks, Ha, D. reflexivity.
Qed.

Lemma get_tasks_hint_witness :
  run (answering (http_ok (JBool true))) (server config0 get_tasks {| uuid := "" |}) =
    ([tool_request config0 get_tasks {| uuid := "" |}],
     Resolved (text_response "No project selected. You need to get the list of projects via get_projects tool select the uuid of the required project and set it using set_project tool")) /\
  run (answering (http_ok (JArr [JStr "a"; JStr "b"])))
      (get_tasks_handler (new_WebvizioClient config0)) =
    ([tool_request config0 get_tasks {| uuid := "" |}],
     Resolved (text_response
       ("Found 2 tasks:" ++ nl ++ nl ++ "[" ++ nl ++
        "  " ++ dquote ++ "a" ++ dquote ++ "," ++ nl ++
        "  " ++ dquote ++ "b" ++ dquote ++ nl ++ "]"))) /\
  run (answering (http_ok (JArr [])))
      (get_tasks_handler (new_WebvizioClient config0)) =
    ([tool_request config0 get_tasks {| uuid := "" |}],
     Resolved (text_response ("Found 0 tasks:" ++ nl ++ nl ++ "[]"))).
Proof.
  destruct get_tasks_hint as [Any Shipped]. split; [| split].
  - apply (Shipped config0 {| uuid := "" |} (answering (http_ok (JBool true)))
             {| status := 200; statusText := "OK"; data := JBool true |});
      reflexivity.
  - destruct (Any (new_WebvizioClient config0)
                (answering (http_ok (JArr [JStr "a"; JStr "b"])))
                [tool_request config0 get_tasks {| uuid := "" |}]
                (JArr [JStr "a"; JStr "b"]) eq_refl) as [_ Arrays].
    exact (Arrays [JStr "a"; JStr "b"] eq_refl ltac:(discriminate)).
  - destruct (Any (new_WebvizioClient config0) (answering (http_ok (JArr [])))
                [tool_request config0 get_tasks {| uuid := "" |}] (JArr [])
                eq_refl) as [_ Arrays].
    exact (Arrays [] eq_refl ltac:(discriminate)).
Defined.

(** *** A message that does not convert to text *)

(** C9, what holds and where the code falls short.  Every handler is a
    [try] block whose [catch] returns [handleError]'s rendering: for an
    error with code and message "Error <code>: <message>" plus the details
    block, otherwise "Error: <message>" or "Error: Unknown error occurred",
    marked as an error.  That rendering converts code and message to text,
    and the conversion can throw: [handleApiError] takes the body's
    [message] field as the message whatever its type, and for an object
    that shadows [toString] every tool rejects instead of answering. *)
Theorem dispatcher_error_boundary :
  (forall (webvizioClient : Client) (t : ToolName) (args : Args),
     exists body : Prog ToolResponse,
       handler webvizioClient t args =
       try_catch body (fun error => handleError error (tool_name t))) /\
  (forall (error : Thrown) (toolName c m : string),
     to_string (thrown_prop error "code") = Some c ->
     to_string (thrown_prop error "message") = Some m ->
     handleError error toolName =
     Ret (error_response
            (if WebvizioMcpServer.isMcpError error
             then "Error " ++ c ++ ": " ++ m ++
                  details_block (thrown_prop error "details")
             else "Error: " ++ (if instanceof_Error error then m
                                else "Unknown error occurred")))) /\
  Forall (fun t =>
            run world_unprintable_message (server config0 t {| uuid := "t-1" |}) =
            ([tool_request config0 t {| uuid := "t-1" |}],
             Rejected (new_TypeError "Cannot convert object to primitive value")))
         all_tools.
Proof.
  split; [exact handler_is_guarded |].
  split; [exact handleError_renders |].
  repeat constructor.
Qed.

Lemma dispatcher_error_boundary_witness :
  handleError (ThrownValue (McpError 404 (JStr "Not Found: Resource not found") JNull))
              "close_task" =
    Ret (error_response "Error 404: Not Found: Resource not found") /\
  handleError (new_Error "Failed to set project") "set_project" =
    Ret (error_response "Error: Failed to set project") /\
  handleError (ThrownValue (JStr "boom")) "get_tasks" =
    Ret (error_response "Error: Unknown error occurred").
Proof.
  destruct dispatcher_error_boundary as (_ & Renders & _).
  split; [| split].
  - exact (Renders (ThrownValue (McpError 404 (JStr "Not Found: Resource not found") JNull))
             "close_task" "404" "Not Found: Resource not found" eq_refl eq_refl).
  - exact (Renders (new_Error "Failed to set project") "set_project"
             "undefined" "Failed to set project" eq_refl eq_refl).
  - exact (Renders (ThrownValue (JStr "boom")) "get_tasks"
             "undefined" "undefined" eq_refl eq_refl).
Defined.

(** C2, what holds and where the code falls short.  When the request of
    [getTasks] fails with details that carry the message
    "Project not found", the adapter returns [false] and the tool answers
    with the project-selection hint, not marked as an error.  Any other
    failure is thrown on unchanged and handed to [handleError].  Its
    rendering as an error response can itself throw (as under C9): for the
    400 answer below, [get_tasks] rejects and produces no response. *)
Theorem get_tasks_failures :
  (forall (config : WebvizioConfig) (args : Args) (w : World) (error : AxiosError),
     api w (tool_request config get_tasks args) = Failed error ->
     carries_project_not_found (get_prop (handleApiError error) "details") = true ->
     run w (WebvizioClient.getTasks config) =
       ([tool_request config get_tasks args], Resolved (JBool false)) /\
     run w (server config get_tasks args) =
       ([tool_request config get_tasks args],
        Resolved (text_response no_project_selected))) /\
  (forall (config : WebvizioConfig) (args : Args) (w : World) (error : AxiosError),
     api w (tool_request config get_tasks args) = Failed error ->
     carries_project_not_found (get_prop (handleApiError error) "details") = false ->
     run w (WebvizioClient.getTasks config) =
       ([tool_request config get_tasks args],
        Rejected (ThrownValue (handleApiError error))) /\
     run w (server config get_tasks args) =
       ([tool_request config get_tasks args],
        snd (run w (handleError (ThrownValue (handleApiError error)) "get_tasks")))) /\
  (run world_unprintable_message (WebvizioClient.getTasks config0) =
     ([tool_request config0 get_tasks {| uuid := "" |}],
      Rejected (ThrownValue
                  (McpError 400 (JObj [("toString", JNum 1)])
                     (JObj [("message", JObj [("toString", JNum 1)])])))) /\
   run world_unprintable_message (server config0 get_tasks {| uuid := "" |}) =
     ([tool_request config0 get_tasks {| uuid := "" |}],
      Rejected (new_TypeError "Cannot convert object to primitive value"))).
Proof.
  split; [exact get_tasks_project_not_found |].
  split; [exact get_tasks_other_failure |].
  split; reflexivity.
Qed.

Lemma get_tasks_failures_witness :
  run world_404_project_not_found (server config0 get_tasks {| uuid := "" |}) =
    ([tool_request config0 get_tasks {| uuid := "" |}],
     Resolved (text_response no_project_selected)) /\
  run (answering (http_error 500 "Internal Server Error" JNull))
      (server config0 get_tasks {| uuid := "" |}) =
    ([tool_request config0 get_tasks {| uuid := "" |}],
     Resolved (error_response "Error 500: Internal Server Error: Webvizio API error")).
Proof.
  destruct get_tasks_failures as (Sentinel & Other & _).
  split.
  - exact (proj2 (Sentinel config0 {| uuid := "" |} world_404_project_not_found
                    _ eq_refl eq_refl)).
  - exact (proj2 (Other config0 {| uuid := "" |}
                    (answering (http_error 500 "Internal Server Error" JNull))
                    _ eq_refl eq_refl)).
Defined.

End ServerFacts.

(* ===================================================================== *)
(** ** Outside the unprintable message, no handler rejects *)
(* ===================================================================== *)

Module Safety.
Import WebvizioClient AdapterFacts ServerFacts.

Create HintDb safe discriminated.

Lemma safe_Ret {A : Type} (w : World) (a : A) : safe w (Ret a).
Proof. intros tr e H. discriminate H. Qed.

Lemma safe_Throw {A : Type} (w : World) (e : Thrown) :
  printable e = true -> safe w (@Throw A e).
Proof. intros P tr e' H. injection H as _ <-. exact P. Qed.

Lemma safe_bind {A B : Type} (w : World) (p : Prog A) (f : A -> Prog B) :
  safe w p -> (forall a, safe w (f a)) -> safe w (bind p f).
Proof.
  intros Sp Sf tr e. rewrite run_bind.
  destruct (run w p) as [t [a | e']] eqn:R.
  - destruct (run w (f a)) as [t' s'] eqn:R'. intros [= _ ->]. eapply Sf, R'.
  - intros [= _ <-]. eapply Sp, R.
Qed.

Lemma safe_try_catch {A : Type} (w : World) (p : Prog A) (h : Thrown -> Prog A) :
  (forall e, safe w (h e)) -> safe w (try_catch p h).
Proof.
  intros Sh tr e. rewrite run_try_catch.
  destruct (run w p) as [t [a | e']]; [discriminate |].
  destruct (run w (h e')) as [t' s'] eqn:R'. intros [= _ ->]. eapply Sh, R'.
Qed.

Lemma safe_log_and_rethrow {A : Type} (w : World) (p : Prog A) :
  safe w p -> safe w (log_and_rethrow p).
Proof. intros S tr e. rewrite log_and_rethrow_id. apply S. Qed.

Lemma safe_ToString (w : World) (v : JsVal) : safe w (ToString v).
Proof.
  unfold ToString. destruct (to_string v).
  - apply safe_Ret.
  - now apply safe_Throw.
Qed.

Lemma safe_member (w : World) (v : JsVal) (k : string) : safe w (member v k).
Proof.
  destruct v; cbn [member]; try apply safe_Ret; now apply safe_Throw.
Qed.

Lemma safe_if {A : Type} (w : World) (c : bool) (p q : Prog A) :
  safe w p -> safe w q -> safe w (if c then p else q).
Proof. now destruct c. Qed.

Lemma printable_new_Error (msg : string) : printable (new_Error msg) = true.
Proof. reflexivity. Qed.

Lemma printable_AxiosError (error : AxiosError) :
  printable (AxiosError_thrown error) = true.
Proof.
  unfold printable, AxiosError_thrown, WebvizioMcpServer.isMcpError. cbn.
  now destruct (code error).
Qed.

Lemma printable_reduction (error : AxiosError) :
  to_string (get_prop (handleApiError error) "message") <> None ->
  printable (ThrownValue (handleApiError error)) = true.
Proof.
  intros M. unfold printable.
  rewrite (proj2 (reduction_isMcpError error)).
  cbn [negb orb thrown_prop].
  assert (C : exists c, get_prop (handleApiError error) "code" = JNum c).
  { unfold handleApiError.
    destruct (response error) as [resp |].
    - repeat (match goal with |- context [if ?c then _ else _] => destruct c end;
              try (eexists; reflexivity)).
    - destruct (request error); eexists; reflexivity. }
  destruct C as [c ->]. cbn [to_string andb].
  now destruct (to_string (get_prop (handleApiError error) "message")).
Qed.

Lemma safe_client_call (w : World) (config : WebvizioConfig) (m : Method)
      (url : string) (body : option JsVal) :
  printable_failures w -> safe w (client_call config m url body).
Proof.
  intros P tr e. rewrite run_client_call.
  destruct (api w _) as [resp | error] eqn:Ha; [discriminate |].
  intros [= _ <-]. apply printable_reduction. eapply P, Ha.
Qed.

Lemma safe_download (w : World) (url : JsVal) : safe w (axios_get_arraybuffer url).
Proof.
  intros tr e. unfold axios_get_arraybuffer. cbn [run].
  destruct (fetch w _) as [resp | error]; [discriminate |].
  intros [= _ <-]. apply printable_AxiosError.
Qed.

Lemma safe_handleError (w : World) (error : Thrown) (toolName : string) :
  printable error = true -> safe w (handleError error toolName).
Proof.
  intros P tr e H.
  destruct (handleError_rejection w error toolName e) as (_ & M & N).
  { now rewrite H. }
  unfold printable in P. rewrite M in P. cbn [negb orb] in P.
  destruct N as [N | N]; rewrite N in P; try discriminate.
  now rewrite andb_false_r in P.
Qed.

#[local] Hint Resolve safe_Ret safe_Throw safe_ToString safe_member safe_if
  safe_client_call safe_download safe_log_and_rethrow printable_new_Error : safe.

Ltac safe_step :=
  first [ apply safe_log_and_rethrow
        | apply safe_bind; [| intro]
        | apply safe_if
        | apply safe_Throw; reflexivity
        | solve [eauto with safe] ].

(** The body of every handler of the shipped server is safe, the
    [get_tasks] sentinel included. *)
Lemma getTasks_safe (w : World) (config : WebvizioConfig) :
  printable_failures w -> safe w (WebvizioClient.getTasks config).
Proof.
  intros P tr e. rewrite run_getTasks.
  destruct (api w _) as [resp | error] eqn:Ha.
  - destruct (truthy (data resp)); [discriminate |]. now intros [= _ <-].
  - destruct (carries_project_not_found _); [discriminate |].
    intros [= _ <-]. apply printable_reduction. eapply P, Ha.
Qed.



(** *** When a tool rejects *)

Lemma safe_client_call_at (w : World) (config : WebvizioConfig) (m : Method)
      (url : string) (body : option JsVal) :
  printable_failure_at w (instance_request config m url body) ->
  safe w (client_call config m url body).
Proof.
  intros P tr e. rewrite run_client_call.
  destruct (api w _) as [resp | error] eqn:Ha; [discriminate |].
  intros [= _ <-]. apply printable_reduction. eapply P, Ha.
Qed.

Lemma getTasks_safe_at (w : World) (config : WebvizioConfig) :
  printable_failure_at w (instance_request config GET "/tasks" None) ->
  safe w (WebvizioClient.getTasks config).
Proof.
  intros P tr e. rewrite run_getTasks.
  destruct (api w _) as [resp | error] eqn:Ha.
  - destruct (truthy (data resp)); [discriminate |]. now intros [= _ <-].
  - destruct (carries_project_not_found _); [discriminate |].
    intros [= _ <-]. apply printable_reduction. eapply P, Ha.
Qed.

(** A tool whose own call does not fail with an unprintable message
    resolves. *)
Lemma tool_resolves (config : WebvizioConfig) (t : ToolName) (args : Args)
      (w : World) :
  printable_failure_at w (tool_request config t args) ->
  exists resp, snd (run w (server config t args)) = Resolved resp.
Proof.
  intros P.
  assert (S : forall body : Prog ToolResponse,
             safe w body ->
             exists resp,
               snd (run w (try_catch body
                             (fun error => handleError error (tool_name t)))) =
               Resolved resp).
  { intros body Sb. rewrite run_try_catch.
    destruct (run w body) as [tr [a | e]] eqn:R; [now exists a |].
    pose proof (Sb _ _ R) as Pe.
    destruct (run w (handleError e (tool_name t))) as [tr' [resp | e']] eqn:R'.
    - now exists resp.
    - destruct (handleError_rejection w e (tool_name t) e') as (_ & M & N).
      { now rewrite R'. }
      unfold printable in Pe. rewrite M in Pe. cbn [negb orb] in Pe.
      destruct N as [N | N]; rewrite N in Pe; try discriminate.
      now rewrite andb_false_r in Pe. }
  destruct t; cbn [tool_request] in P; unfold_tool; apply S.
  4: { cbn [new_WebvizioClient WebvizioMcpServer.getTasks].
       apply safe_bind; [now apply getTasks_safe_at | intro].
       repeat safe_step. }
  all: repeat first [ apply safe_client_call_at; exact P | safe_step ].
Qed.

Lemma reduction_code (error : AxiosError) :
  exists c : Z, get_prop (handleApiError error) "code" = JNum c.
Proof.
  unfold handleApiError.
  destruct (response error) as [resp |].
  - repeat (match goal with |- context [if ?c then _ else _] => destruct c end;
            try (eexists; reflexivity)).
  - destruct (request error); eexists; reflexivity.
Qed.

(** [handleError] on a reduction whose message does not convert. *)
Lemma handleError_unprintable (w : World) (error : AxiosError) (toolName : string) :
  to_string (get_prop (handleApiError error) "message") = None ->
  run w (handleError (ThrownValue (handleApiError error)) toolName) =
  ([], Rejected (new_TypeError "Cannot convert object to primitive value")).
Proof.
  intros M. unfold handleError.
  rewrite (proj2 (reduction_isMcpError error)). cbn [thrown_prop].
  destruct (reduction_code error) as [c ->].
  unfold ToString. cbn [to_string bind]. rewrite M. reflexivity.
Qed.

(** A message that does not convert is not the string "Project not
    found": such a failure of [getTasks] is thrown on. *)
Lemma unprintable_is_not_the_sentinel (error : AxiosError) :
  to_string (get_prop (handleApiError error) "message") = None ->
  carries_project_not_found (get_prop (handleApiError error) "details") = false.
Proof.
  destruct (response error) as [resp |] eqn:R.
  - rewrite (handleApiError_response _ _ R).
    change (get_prop (McpError ?c ?m ?d) "message") with m.
    change (get_prop (McpError ?c ?m ?d) "details") with d.
    destruct (fixed_message (status resp)); [discriminate |].
    unfold extracted_message, carries_project_not_found.
    destruct (opt_chain (data resp) "message") as [| | b | n | str | items | props]
      eqn:O; try reflexivity.
    cbn [strict_eq_str truthy].
    destruct (String.eqb_spec str "Project not found") as [-> | NE];
      [| reflexivity].
    cbn. discriminate.
  - rewrite (handleApiError_no_response _ R).
    destruct (request error); discriminate.
Qed.



Example printable_failures_plain_bodies :
  printable_failures (answering unreachable) /\
  printable_failures
    (answering (http_error 400 "Bad Request" (JObj [("message", JStr "uuid is invalid")]))).
Proof. split; intros r error [= <-]; discriminate. Qed.

End Safety.

(* ===================================================================== *)
(** ** Further properties of the shipped server *)
(* ===================================================================== *)

Module Further.
Import WebvizioClient AdapterFacts ServerFacts.

(** *** What is sent, and where the credentials go *)

Lemma quiet_Ret {A : Type} (a : A) : quiet (Ret a).
Proof. intros w. reflexivity. Qed.

Lemma quiet_Throw {A : Type} (e : Thrown) : quiet (@Throw A e).
Proof. intros w. reflexivity. Qed.

Lemma quiet_bind {A B : Type} (p : Prog A) (f : A -> Prog B) :
  quiet p -> (forall a, quiet (f a)) -> quiet (bind p f).
Proof.
  intros Qp Qf w. rewrite run_bind. specialize (Qp w).
  destruct (run w p) as [t [a | e]]; cbn [fst] in Qp; subst t.
  - specialize (Qf a w). destruct (run w (f a)) as [t' s']. exact Qf.
  - reflexivity.
Qed.

Lemma quiet_if {A : Type} (c : bool) (p q : Prog A) :
  quiet p -> quiet q -> quiet (if c then p else q).
Proof. now destruct c. Qed.

Lemma quiet_ToString (v : JsVal) : quiet (ToString v).
Proof. unfold ToString. destruct (to_string v); [apply quiet_Ret | apply quiet_Throw]. Qed.

Lemma quiet_member (v : JsVal) (k : string) : quiet (member v k).
Proof. destruct v; cbn [member]; (apply quiet_Ret || apply quiet_Throw). Qed.

Lemma quiet_handleError (error : Thrown) (toolName : string) :
  quiet (handleError error toolName).
Proof. intros w. apply handleError_no_request. Qed.

Ltac quiet_step :=
  first [ apply quiet_handleError | apply quiet_ToString | apply quiet_member
        | apply quiet_Ret | apply quiet_Throw
        | apply quiet_if | apply quiet_bind; [| intro] ].

(** A handler sends what its adapter call sends. *)
Lemma guarded_trace {A B : Type} (w : World) (op : Prog A) (g : A -> Prog B)
      (h : Thrown -> Prog B) :
  (forall a, quiet (g a)) -> (forall e, quiet (h e)) ->
  fst (run w (try_catch (bind op g) h)) = fst (run w op).
Proof.
  intros Qg Qh. rewrite run_try_catch, run_bind.
  destruct (run w op) as [t [a | e]].
  - specialize (Qg a w). destruct (run w (g a)) as [t' [b | e']];
      cbn [fst] in Qg; subst t'.
    + cbn [fst]. apply app_nil_r.
    + specialize (Qh e' w). destruct (run w (h e')) as [t'' s''].
      cbn [fst] in *. subst t''. now rewrite !app_nil_r.
  - specialize (Qh e w). destruct (run w (h e)) as [t'' s''].
    cbn [fst] in *. subst t''. apply app_nil_r.
Qed.

Lemma adapter_trace {A : Type} (w : World) (config : WebvizioConfig) (m : Method)
      (url : string) (body : option JsVal) (f : AxiosResponse JsVal -> Prog A) :
  (forall resp, quiet (f resp)) ->
  fst (run w (log_and_rethrow (bind (client_call config m url body) f))) =
  [instance_request config m url body].
Proof.
  intros Qf. rewrite run_adapter_call.
  destruct (api w _) as [resp | error]; [| reflexivity].
  specialize (Qf resp w). destruct (run w (f resp)) as [t s].
  cbn [fst] in *. now subst t.
Qed.

Lemma screenshot_trace (w : World) (config : WebvizioConfig)
      (request : WebvizioGetTaskRequest) :
  let r := instance_request config GET
             ("/task/" ++ task_uuid request ++ "/screenshot") None in
  fst (run w (WebvizioClient.getTaskScreenshot config request)) =
  match api w r with
  | Answered meta =>
      if truthy (opt_chain (data meta) "screenshot")
      then [r; plain_request (get_prop (data meta) "screenshot")]
      else [r]
  | Failed _ => [r]
  end.
Proof.
  cbn zeta. unfold WebvizioClient.getTaskScreenshot, client_get.
  rewrite run_adapter_call.
  destruct (api w _) as [resp | error]; [| reflexivity].
  destruct (truthy (opt_chain (data resp) "screenshot")) eqn:T; cbn [negb].
  - cbn [bind axios_get_arraybuffer run].
    destruct (fetch w _); reflexivity.
  - reflexivity.
Qed.

(** The calls of an invocation: none, the one of the tool, or that one
    and the download of the screenshot. *)
Lemma calls_of_a_tool (config : WebvizioConfig) (t : ToolName) (args : Args)
      (w : World) :
  (fst (run w (server config t args)) = [] /\ t = set_project /\ uuid args = "") \/
  (fst (run w (server config t args)) = [tool_request config t args] /\
   (t = set_project -> uuid args <> "") /\
   (t = get_task_screenshot ->
    forall meta, api w (tool_request config t args) = Answered meta ->
                 truthy (opt_chain (data meta) "screenshot") = false)) \/
  (t = get_task_screenshot /\
   exists meta,
     api w (tool_request config t args) = Answered meta /\
     truthy (opt_chain (data meta) "screenshot") = true /\
     fst (run w (server config t args)) =
     [tool_request config t args;
      {| req_method := GET;
         req_baseURL := None;
         req_url := get_prop (data meta) "screenshot";
         req_headers := [];
         req_timeout := None;
         req_responseType := arraybuffer;
         req_data := None |}]).
Proof.
  destruct t; cbn [tool_request]; unfold_tool.
  3: { (* set_project *)
    cbn [truthy]. destruct (String.eqb_spec (uuid args) "") as [E | NE].
    - left. cbn [negb]. split; [reflexivity | split; [reflexivity | exact E]].
    - right; left. cbn [negb]. rewrite guarded_trace by (intros; repeat quiet_step).
      split; [| split; [intros _; exact NE | discriminate]].
      apply adapter_trace. intros; repeat quiet_step. }
  3: { (* get_tasks *)
    right; left. cbn [new_WebvizioClient WebvizioMcpServer.getTasks].
    rewrite guarded_trace by (intros; repeat quiet_step).
    split; [now rewrite run_getTasks | split; discriminate]. }
  8: { (* get_task_screenshot *)
    rewrite guarded_trace by (intros; repeat quiet_step).
    pose proof (screenshot_trace w config {| task_uuid := uuid args |}) as H.
    cbn zeta in H. unfold WebvizioClient.getTaskScreenshot, client_get in H.
    cbn [task_uuid] in H. rewrite H.
    destruct (api w _) as [meta | error] eqn:Ha.
    - destruct (truthy (opt_chain (data meta) "screenshot")) eqn:T.
      + right; right. split; [reflexivity |]. exists meta. now repeat split.
      + right; left. split; [reflexivity | split; [discriminate |]].
        intros _ meta' [= <-]. exact T.
    - right; left. split; [reflexivity | split; discriminate]. }
  all: right; left; rewrite guarded_trace by (intros; repeat quiet_step);
    (split; [apply adapter_trace; intros; repeat quiet_step | split; discriminate]).
Qed.

(** The axios calls of an invocation.  The invocation makes no call
    (only [set_project] with an empty uuid), or the one call of its tool
    through the adapter's instance, configured with the base URL and the
    bearer token, with the method, the path and the body listed below,
    followed for [get_task_screenshot], when the answer has a truthy
    [screenshot] field, by one plain GET of the value of that field,
    configured with no header, base URL or body.  The token is given to
    no other call. *)
Theorem requests_of_a_tool (config : WebvizioConfig) (t : ToolName) (args : Args)
        (w : World) :
  through_instance config (tool_request config t args) /\
  req_method (tool_request config t args) =
    match t with
    | set_project | close_task => POST
    | _ => GET
    end /\
  req_url (tool_request config t args) =
    JStr match t with
         | get_projects => "/projects"
         | get_current_project => "/current-project"
         | set_project => "/set-project"
         | get_tasks => "/tasks"
         | get_task_description => "/task/" ++ uuid args
         | get_task_prompt => "/task/" ++ uuid args ++ "/prompt"
         | get_task_console_logs => "/task/" ++ uuid args ++ "/console-logs"
         | get_task_network_logs => "/task/" ++ uuid args ++ "/network-logs"
         | get_task_action_logs => "/task/" ++ uuid args ++ "/action-logs"
         | get_task_screenshot => "/task/" ++ uuid args ++ "/screenshot"
         | close_task => "/task/" ++ uuid args ++ "/close"
         end /\
  req_data (tool_request config t args) =
    match t with
    | set_project => Some (JObj [("uuid", JStr (uuid args))])
    | _ => None
    end /\
  ((fst (run w (server config t args)) = [] /\ t = set_project /\ uuid args = "") \/
   (fst (run w (server config t args)) = [tool_request config t args] /\
    (t = set_project -> uuid args <> "") /\
    (t = get_task_screenshot ->
     forall meta, api w (tool_request config t args) = Answered meta ->
                  truthy (opt_chain (data meta) "screenshot") = false)) \/
   (t = get_task_screenshot /\
    exists meta,
      api w (tool_request config t args) = Answered meta /\
      truthy (opt_chain (data meta) "screenshot") = true /\
      fst (run w (server config t args)) =
      [tool_request config t args;
       {| req_method := GET;
          req_baseURL := None;
          req_url := get_prop (data meta) "screenshot";
          req_headers := [];
          req_timeout := None;
          req_responseType := arraybuffer;
          req_data := None |}])).
Proof.
  split; [destruct t; repeat split |].
  split; [now destruct t |].
  split; [now destruct t |].
  split; [now destruct t | apply calls_of_a_tool].
Qed.

(** *** The reduced error is well formed *)

Lemma McpError_fields (c : Z) (m d : JsVal) :
  get_prop (McpError c m d) "code" = JNum c /\
  get_prop (McpError c m d) "message" = m /\
  get_prop (McpError c m d) "details" = d.
Proof. repeat split. Qed.

(** Whatever the failure, the error built by [handleApiError] has a number
    as code and a truthy message: never [null], [undefined] or empty. *)
Theorem reduction_has_message (error : AxiosError) :
  truthy (get_prop (handleApiError error) "message") = true /\
  exists c : Z, get_prop (handleApiError error) "code" = JNum c.
Proof.
  unfold handleApiError.
  destruct (response error) as [resp |].
  - repeat (match goal with
            | |- context [if (?a =? ?b)%Z then _ else _] => destruct (a =? b)%Z
            end;
            try (split; [reflexivity | eexists; reflexivity])).
    split; [| eexists; reflexivity].
    destruct (McpError_fields (status resp)
                (js_or (opt_chain (data resp) "message")
                   (js_or (opt_chain (data resp) "error")
                      (JStr ("HTTP " ++ Number_toString (status resp) ++ ": " ++
                             statusText resp))))
                (data resp)) as (_ & -> & _).
    unfold js_or.
    destruct (truthy (opt_chain (data resp) "message")) eqn:T1; [exact T1 |].
    destruct (truthy (opt_chain (data resp) "error")) eqn:T2; [exact T2 |].
    reflexivity.
  - destruct (request error); (split; [reflexivity | eexists; reflexivity]).
Qed.

(** *** A failure without a response *)

(** When the request of a tool gets no response, the tool answers
    "Error 0: Network Error: Unable to reach Webvizio API", or
    "Error -1: Request Error: <message>" when no request was dispatched
    either, followed by the details with the original message.
    [get_tasks] does so too: such a failure is never taken for
    "Project not found", whatever its message. *)
Theorem no_response_is_reported (config : WebvizioConfig) (t : ToolName)
        (args : Args) (w : World) (error : AxiosError) :
  api w (tool_request config t args) = Failed error ->
  response error = None ->
  (t = set_project -> uuid args <> "") ->
  run w (server config t args) =
  ([tool_request config t args],
   Resolved (error_response
               ((if request error
                 then "Error 0: Network Error: Unable to reach Webvizio API"
                 else "Error -1: Request Error: " ++ message error) ++
                original_error_block error))).
Proof.
  intros Ha Hr NE.
  pose proof (handleApiError_no_response error Hr) as E.
  destruct (ToolName_eq_dec t get_tasks) as [-> | NT].
  - destruct (get_tasks_other_failure config args w error Ha) as [_ R].
    { rewrite E. reflexivity. }
    rewrite R, E. destruct (request error); reflexivity.
  - rewrite (failed_request_is_handled config t args w error NT NE Ha), E.
    rewrite handleError_McpError. destruct (request error); reflexivity.
Qed.

Lemma no_response_is_reported_witness :
  run (answering unreachable) (server config0 get_tasks {| uuid := "" |}) =
  ([tool_request config0 get_tasks {| uuid := "" |}],
   Resolved (error_response
     ("Error 0: Network Error: Unable to reach Webvizio API" ++ nl ++
      "Details: {" ++ nl ++
      "  " ++ dquote ++ "originalError" ++ dquote ++ ": " ++ dquote ++
      "connect ECONNREFUSED" ++ dquote ++ nl ++ "}"))).
Proof.
  apply (no_response_is_reported config0 get_tasks {| uuid := "" |}
           (answering unreachable) _ eq_refl eq_refl).
  discriminate.
Defined.

(** *** What the tools answer to a successful response *)

Lemma falsy_has_no_property (v : JsVal) (k : string) :
  truthy v = false -> String.eqb k "length" = false -> get_prop v k = JUndefined.
Proof.
  intros F L. destruct v; try reflexivity; try discriminate F.
  cbn [truthy] in F. apply negb_false_iff, String.eqb_eq in F. subst s.
  cbn [get_prop]. rewrite L. reflexivity.
Qed.

Lemma member_of_falsy (v : JsVal) (k : string) :
  truthy v = false -> String.eqb k "length" = false ->
  member v k =
  if nullish v then Throw (new_TypeError (cannot_read v k)) else Ret JUndefined.
Proof.
  intros F L. pose proof (falsy_has_no_property v k F L) as G.
  destruct v; try reflexivity; try discriminate F; cbn [member nullish];
    now rewrite G.
Qed.

Lemma member_of_truthy (v : JsVal) (k : string) :
  truthy v = true -> member v k = Ret (get_prop v k).
Proof. destruct v; try reflexivity; discriminate. Qed.

(** The five tools that show a text of the task read one field of the
    body, [description] for the description and [prompt] for the prompt
    and for all three kinds of logs.  A truthy field is shown after the
    tool's label, converted to text as a template does (a string as it
    is); if it has no such conversion, the tool answers with an error
    response.  A falsy or missing field is reported as the adapter's
    error "Failed to get ...". *)
Theorem field_tools_show_the_field (config : WebvizioConfig) (t : ToolName)
        (args : Args) (w : World) (resp : AxiosResponse JsVal) :
  In t field_tools ->
  api w (tool_request config t args) = Answered resp ->
  (truthy (opt_chain (data resp) (field_of t)) = true ->
   run w (server config t args) =
   ([tool_request config t args],
    Resolved (match to_string (get_prop (data resp) (field_of t)) with
              | Some text => text_response (label_of t ++ nl ++ nl ++ text)
              | None => error_response
                          "Error: Cannot convert object to primitive value"
              end)) /\
   (forall text : string,
      get_prop (data resp) (field_of t) = JStr text ->
      run w (server config t args) =
      ([tool_request config t args],
       Resolved (text_response (label_of t ++ nl ++ nl ++ text))))) /\
  (truthy (opt_chain (data resp) (field_of t)) = false ->
   run w (server config t args) =
   ([tool_request config t args],
    Resolved (error_response
                ("Error: Failed to get " ++
                 match t with
                 | get_task_description => "task description"
                 | get_task_prompt => "task prompt"
                 | get_task_console_logs => "console logs prompt"
                 | get_task_network_logs => "network logs prompt"
                 | _ => "action logs prompt"
                 end)))).
Proof.
  intros T Ha. split.
  - intros F. pose proof (opt_chain_truthy _ _ F) as G. rewrite G in F.
    assert (R : run w (server config t args) =
      ([tool_request config t args],
       Resolved (match to_string (get_prop (data resp) (field_of t)) with
                 | Some text => text_response (label_of t ++ nl ++ nl ++ text)
                 | None => error_response
                             "Error: Cannot convert object to primitive value"
                 end))).
    { destruct T as [<- | [<- | [<- | [<- | [<- | []]]]]];
        cbn [tool_request field_of label_of] in *; unfold_tool;
        rewrite run_try_catch, run_bind, run_adapter_call, Ha, G, F;
        cbn [negb run app]; rewrite ?F; cbn [negb]; unfold ToString;
        destruct (to_string (get_prop (data resp) _)); reflexivity. }
    split; [exact R |].
    intros text S. rewrite R, S. reflexivity.
  - intros F.
    destruct T as [<- | [<- | [<- | [<- | [<- | []]]]]];
      cbn [tool_request field_of] in *; unfold_tool;
      rewrite run_try_catch, run_bind, run_adapter_call, Ha, F; reflexivity.
Qed.

Lemma field_tools_show_the_field_witness :
  run (answering (http_ok (JObj [("prompt", JStr "GET /api 500")])))
      (server config0 get_task_network_logs {| uuid := "t-1" |}) =
  ([tool_request config0 get_task_network_logs {| uuid := "t-1" |}],
   Resolved (text_response ("Task network logs:" ++ nl ++ nl ++ "GET /api 500"))) /\
  run (answering (http_ok (JObj [("description", JNum (decimal 1 21))])))
      (server config0 get_task_description {| uuid := "t-1" |}) =
  ([tool_request config0 get_task_description {| uuid := "t-1" |}],
   Resolved (text_response ("Task description:" ++ nl ++ nl ++ "1e+21"))) /\
  run (answering (http_ok (JObj [("prompt", JNum 0)])))
      (server config0 get_task_prompt {| uuid := "t-1" |}) =
  ([tool_request config0 get_task_prompt {| uuid := "t-1" |}],
   Resolved (error_response "Error: Failed to get task prompt")).
Proof.
  split; [| split].
  - apply (proj1 (proj1 (field_tools_show_the_field config0 get_task_network_logs
                    {| uuid := "t-1" |}
                    (answering (http_ok (JObj [("prompt", JStr "GET /api 500")])))
                    {| status := 200; statusText := "OK";
                       data := JObj [("prompt", JStr "GET /api 500")] |}
                    (or_intror (or_intror (or_intror (or_introl eq_refl))))
                    eq_refl) eq_refl)).
  - refine (eq_trans
              (proj1 (proj1 (field_tools_show_the_field config0 get_task_description
                        {| uuid := "t-1" |}
                        (answering (http_ok (JObj [("description", JNum (decimal 1 21))])))
                        {| status := 200; statusText := "OK";
                           data := JObj [("description", JNum (decimal 1 21))] |}
                        (or_introl eq_refl) eq_refl) eq_refl)) _).
    vm_compute. reflexivity.
  - apply (proj2 (field_tools_show_the_field config0 get_task_prompt
                    {| uuid := "t-1" |}
                    (answering (http_ok (JObj [("prompt", JNum 0)])))
                    {| status := 200; statusText := "OK";
                       data := JObj [("prompt", JNum 0)] |}
                    (or_intror (or_introl eq_refl)) eq_refl) eq_refl).
Defined.

(** [get_projects] on a successful response: a truthy body is announced
    with its [length] property, printed as a template prints it (for an
    array, the number of its elements in decimal), and dumped; a [null] body makes the adapter's own error message fail with
    a [TypeError], which is what the tool then reports; any other falsy
    body is reported as "Failed to fetch projects". *)
Theorem get_projects_answers (config : WebvizioConfig) (args : Args) (w : World)
        (resp : AxiosResponse JsVal) :
  api w (tool_request config get_projects args) = Answered resp ->
  run w (server config get_projects args) =
  ([tool_request config get_projects args],
   Resolved
     (if truthy (data resp) then
        match to_string (get_prop (data resp) "length") with
        | Some n =>
            text_response ("Found " ++ n ++ " projects:" ++ nl ++ nl ++
                           JSON_stringify (data resp))
        | None => error_response "Error: Cannot convert object to primitive value"
        end
      else if nullish (data resp) then
        error_response ("Error: " ++ cannot_read (data resp) "error")
      else error_response "Error: Failed to fetch projects")) /\
  (forall items : list JsVal,
     data resp = JArr items ->
     (Z.of_nat (List.length items) <= 4294967295)%Z ->
     snd (run w (server config get_projects args)) =
     Resolved (text_response
                 ("Found " ++ show_nat (List.length items) ++ " projects:" ++
                  nl ++ nl ++ JSON_stringify (JArr items)))).
Proof.
  intros Ha.
  assert (R : run w (server config get_projects args) =
    ([tool_request config get_projects args],
     Resolved
       (if truthy (data resp) then
          match to_string (get_prop (data resp) "length") with
          | Some n =>
              text_response ("Found " ++ n ++ " projects:" ++ nl ++ nl ++
                             JSON_stringify (data resp))
          | None => error_response "Error: Cannot convert object to primitive value"
          end
        else if nullish (data resp) then
          error_response ("Error: " ++ cannot_read (data resp) "error")
        else error_response "Error: Failed to fetch projects"))).
  { cbn [tool_request] in *. unfold_tool.
    rewrite run_try_catch, run_bind, run_adapter_call, Ha.
    destruct (truthy (data resp)) eqn:T; cbn [negb].
    - cbn [run app]. rewrite (member_of_truthy _ "length" T). cbn [bind].
      unfold ToString. destruct (to_string (get_prop (data resp) "length"));
        reflexivity.
    - rewrite (member_of_falsy _ "error" T eq_refl).
      destruct (nullish (data resp)); reflexivity. }
  split; [exact R |].
  intros items D L. rewrite R, D. cbn [truthy snd].
  rewrite (JsFacts.length_to_string items L). reflexivity.
Qed.

Lemma get_projects_answers_witness :
  run (answering (http_ok (JStr ""))) (server config0 get_projects {| uuid := "" |}) =
  ([tool_request config0 get_projects {| uuid := "" |}],
   Resolved (error_response "Error: Failed to fetch projects")) /\
  snd (run (answering (http_ok (JArr [JObj [("uuid", JStr "p-1")]])))
           (server config0 get_projects {| uuid := "" |})) =
  Resolved (text_response
    ("Found 1 projects:" ++ nl ++ nl ++ "[" ++ nl ++ "  {" ++ nl ++
     "    " ++ dquote ++ "uuid" ++ dquote ++ ": " ++ dquote ++ "p-1" ++ dquote ++
     nl ++ "  }" ++ nl ++ "]")) /\
  run (answering (http_ok (JObj [("length", JNum (decimal 1 21))])))
      (server config0 get_projects {| uuid := "" |}) =
  ([tool_request config0 get_projects {| uuid := "" |}],
   Resolved (text_response
     ("Found 1e+21 projects:" ++ nl ++ nl ++ "{" ++ nl ++
      "  " ++ dquote ++ "length" ++ dquote ++ ": 1e+21" ++ nl ++ "}"))).
Proof.
  split; [| split].
  - exact (proj1 (get_projects_answers config0 {| uuid := "" |}
                    (answering (http_ok (JStr "")))
                    {| status := 200; statusText := "OK"; data := JStr "" |} eq_refl)).
  - exact (proj2 (get_projects_answers config0 {| uuid := "" |}
                    (answering (http_ok (JArr [JObj [("uuid", JStr "p-1")]])))
                    {| status := 200; statusText := "OK";
                       data := JArr [JObj [("uuid", JStr "p-1")]] |} eq_refl)
             [JObj [("uuid", JStr "p-1")]] eq_refl ltac:(discriminate)).
  - refine (eq_trans
              (proj1 (get_projects_answers config0 {| uuid := "" |}
                        (answering (http_ok (JObj [("length", JNum (decimal 1 21))])))
                        {| status := 200; statusText := "OK";
                           data := JObj [("length", JNum (decimal 1 21))] |} eq_refl)) _).
    vm_compute. reflexivity.
Defined.

(** [get_current_project] dumps any truthy body and reports a falsy one as
    "Failed to fetch current project". *)
Theorem get_current_project_answers (config : WebvizioConfig) (args : Args)
        (w : World) (resp : AxiosResponse JsVal) :
  api w (tool_request config get_current_project args) = Answered resp ->
  run w (server config get_current_project args) =
  ([tool_request config get_current_project args],
   Resolved (if truthy (data resp)
             then text_response ("Current project details:" ++ nl ++ nl ++
                                 JSON_stringify (data resp))
             else error_response "Error: Failed to fetch current project")).
Proof.
  intros Ha. cbn [tool_request] in *. unfold_tool.
  rewrite run_try_catch, run_bind, run_adapter_call, Ha.
  destruct (truthy (data resp)); reflexivity.
Qed.

Lemma get_current_project_answers_witness :
  run (answering (http_ok (JObj [("uuid", JStr "p-1")])))
      (server config0 get_current_project {| uuid := "" |}) =
  ([tool_request config0 get_current_project {| uuid := "" |}],
   Resolved (text_response
     ("Current project details:" ++ nl ++ nl ++ "{" ++ nl ++
      "  " ++ dquote ++ "uuid" ++ dquote ++ ": " ++ dquote ++ "p-1" ++ dquote ++
      nl ++ "}"))).
Proof.
  exact (get_current_project_answers config0 {| uuid := "" |}
           (answering (http_ok (JObj [("uuid", JStr "p-1")])))
           {| status := 200; statusText := "OK";
              data := JObj [("uuid", JStr "p-1")] |} eq_refl).
Defined.

(** [set_project] with a non-empty uuid posts it as [{"uuid": ...}]; a
    truthy body is answered with "Successfully set project <uuid> as
    current" and a falsy one with the error "Failed to set project". *)
Theorem set_project_answers (config : WebvizioConfig) (args : Args) (w : World)
        (resp : AxiosResponse JsVal) :
  uuid args <> "" ->
  api w (tool_request config set_project args) = Answered resp ->
  req_data (tool_request config set_project args) =
    Some (JObj [("uuid", JStr (uuid args))]) /\
  run w (server config set_project args) =
  ([tool_request config set_project args],
   Resolved (if truthy (data resp)
             then text_response
                    ("Successfully set project " ++ uuid args ++ " as current")
             else error_response "Error: Failed to set project")).
Proof.
  intros NE Ha. split; [reflexivity |]. cbn [tool_request] in *. unfold_tool.
  cbn [truthy]. destruct (String.eqb_spec (uuid args) "") as [E | _]; [now elim NE |].
  cbn [negb]. rewrite run_try_catch, run_bind, run_adapter_call, Ha.
  destruct (truthy (data resp)) eqn:T; cbn [negb run app]; [| reflexivity].
  rewrite T. reflexivity.
Qed.

Lemma set_project_answers_witness :
  run (answering (http_ok (JBool false))) (server config0 set_project {| uuid := "p-1" |}) =
  ([tool_request config0 set_project {| uuid := "p-1" |}],
   Resolved (error_response "Error: Failed to set project")).
Proof.
  exact (proj2 (set_project_answers config0 {| uuid := "p-1" |}
                  (answering (http_ok (JBool false)))
                  {| status := 200; statusText := "OK"; data := JBool false |}
                  ltac:(discriminate) eq_refl)).
Defined.

(** [close_task] answers "Task closed successfully" to every successful
    response whose body is not [null] or [undefined], whatever its
    [success] field says or even without one; a [null] body is reported
    as the [TypeError] of reading [success]. *)
Theorem close_task_answers (config : WebvizioConfig) (args : Args) (w : World)
        (resp : AxiosResponse JsVal) :
  api w (tool_request config close_task args) = Answered resp ->
  run w (server config close_task args) =
  ([tool_request config close_task args],
   Resolved (if nullish (data resp)
             then error_response ("Error: " ++ cannot_read (data resp) "success")
             else text_response "Task closed successfully")).
Proof.
  intros Ha. cbn [tool_request] in *. unfold_tool.
  rewrite run_try_catch, run_bind, run_adapter_call, Ha.
  destruct (data resp); reflexivity.
Qed.

Lemma close_task_answers_witness :
  run (answering (http_ok (JObj [("error", JStr "task is locked")])))
      (server config0 close_task {| uuid := "t-1" |}) =
  ([tool_request config0 close_task {| uuid := "t-1" |}],
   Resolved (text_response "Task closed successfully")).
Proof.
  exact (close_task_answers config0 {| uuid := "t-1" |}
           (answering (http_ok (JObj [("error", JStr "task is locked")])))
           {| status := 200; statusText := "OK";
              data := JObj [("error", JStr "task is locked")] |} eq_refl).
Defined.

(** *** The screenshot when something is missing *)

Lemma append_empty (s : string) : s ++ "" = s.
Proof. induction s as [| c s IH]; cbn; [reflexivity | now rewrite IH]. Qed.

(** Without a truthy [screenshot] field in the metadata the tool reports
    "Failed to get task screenshot" and downloads nothing.  When the
    download fails, its error is not reduced like those of the service: the
    tool reports the error of the HTTP layer itself, "Error <code>:
    <message>" with the layer's string code, or "Error: <message>" when it
    has none. *)
Theorem screenshot_failures (config : WebvizioConfig) (args : Args) (w : World)
        (meta : AxiosResponse JsVal) :
  api w (tool_request config get_task_screenshot args) = Answered meta ->
  (truthy (opt_chain (data meta) "screenshot") = false ->
   run w (server config get_task_screenshot args) =
   ([tool_request config get_task_screenshot args],
    Resolved (error_response "Error: Failed to get task screenshot"))) /\
  (forall error : AxiosError,
     truthy (opt_chain (data meta) "screenshot") = true ->
     fetch w (plain_request (get_prop (data meta) "screenshot")) = Failed error ->
     run w (server config get_task_screenshot args) =
     ([tool_request config get_task_screenshot args;
       plain_request (get_prop (data meta) "screenshot")],
      Resolved (error_response
                  (match code error with
                   | Some c => "Error " ++ c ++ ": " ++ message error
                   | None => "Error: " ++ message error
                   end)))).
Proof.
  intros Ha. cbn [tool_request] in *. unfold_tool.
  rewrite run_try_catch, run_bind, run_adapter_call, Ha.
  split.
  - intros F. rewrite F. reflexivity.
  - intros error T Hf. rewrite T. cbn [negb bind axios_get_arraybuffer run].
    rewrite Hf. cbn [bind run app].
    unfold handleError, WebvizioMcpServer.isMcpError, AxiosError_thrown.
    cbn [thrown_truthy thrown_typeof_object thrown_in thrown_prop error_code
         error_message String.eqb Ascii.eqb Bool.eqb andb orb instanceof_Error].
    destruct (code error) as [c |]; cbn [andb]; [| reflexivity].
    cbn [ToString to_string bind truthy run].
    now rewrite append_empty.
Qed.

Lemma screenshot_failures_witness :
  run world_broken_download (server config0 get_task_screenshot {| uuid := "t-1" |}) =
  ([tool_request config0 get_task_screenshot {| uuid := "t-1" |};
    plain_request (JStr "https://cdn.example/s.png")],
   Resolved (error_response
     "Error ERR_BAD_REQUEST: Request failed with status code 404")).
Proof.
  exact (proj2 (screenshot_failures config0 {| uuid := "t-1" |} world_broken_download
                  {| status := 200; statusText := "OK";
                     data := JObj [("screenshot", JStr "https://cdn.example/s.png")] |}
                  eq_refl) _ eq_refl eq_refl).
Defined.

(** *** What the adapter returns and what the tools never answer *)

(** The nine operations that return a part of the service's answer after
    testing it return truthy values only: an empty or missing payload is
    thrown, never returned.  The other three can return a falsy value:
    [getTaskScreenshot] the empty string for an empty image, [closeTask]
    whatever [success] holds, [getTasks] its sentinel [false]. *)
Theorem checked_operations_return_truthy (config : WebvizioConfig) :
  (forall (w : World) (op : Operation) (id : string) (t : list HttpRequest)
          (v : JsVal),
     In op checked_operations ->
     run w (perform config op id) = (t, Resolved v) ->
     truthy v = true) /\
  checked_operations =
    [op_getProjects; op_getCurrentProject; op_setProject; op_getTaskPrompt;
     op_getTaskDescription; op_getTaskConsoleLogs; op_getTaskNetworkLogs;
     op_getTaskActionLogs; op_getTaskErrorLogs] /\
  snd (run (world_screenshot []) (perform config op_getTaskScreenshot "t-1")) =
    Resolved (JStr "") /\
  snd (run (answering (http_ok (JObj [("success", JBool false)])))
           (perform config op_closeTask "t-1")) = Resolved (JBool false) /\
  snd (run world_404_project_not_found (perform config op_getTasks "")) =
    Resolved (JBool false).
Proof.
  split; [| repeat split].
  intros w op id t v I.
  destruct I as [<- | [<- | [<- | [<- | [<- | [<- | [<- | [<- | [<- | []]]]]]]]]];
    cbn [perform];
    unfold WebvizioClient.getProjects, WebvizioClient.getCurrentProject,
      WebvizioClient.setProject, WebvizioClient.getTaskPrompt,
      WebvizioClient.getTaskDescription, WebvizioClient.getTaskConsoleLogs,
      WebvizioClient.getTaskNetworkLogs, WebvizioClient.getTaskActionLogs,
      WebvizioClient.getTaskErrorLogs, client_get, client_post;
    rewrite run_adapter_call;
    (destruct (api w _) as [resp | error]; [| discriminate]).
  1: { destruct (truthy (data resp)) eqn:T; cbn [negb].
       - cbn [run]. now intros [= _ <-].
       - rewrite (member_of_falsy _ "error" T eq_refl).
         destruct (nullish (data resp)); discriminate. }
  1, 2: destruct (truthy (data resp)) eqn:T; cbn [negb run];
        [now intros [= _ <-] | discriminate].
  all: match goal with
       | |- context [truthy (opt_chain ?d ?k)] =>
           destruct (truthy (opt_chain d k)) eqn:T; cbn [negb run];
           [intros [= _ <-]; now rewrite <- (opt_chain_truthy _ _ T)
           | discriminate]
       end.
Qed.

Lemma checked_operations_return_truthy_witness :
  run (answering (http_ok (JArr []))) (perform config0 op_getProjects "") =
    ([operation_request config0 op_getProjects ""], Resolved (JArr [])) /\
  truthy (JArr []) = true.
Proof.
  split; [reflexivity |].
  exact (proj1 (checked_operations_return_truthy config0)
           (answering (http_ok (JArr [])))
           op_getProjects "" [operation_request config0 op_getProjects ""] (JArr [])
           (or_introl eq_refl) eq_refl).
Defined.

Lemma handleError_is_not_text (w : World) (error : Thrown) (toolName text : string) :
  snd (run w (handleError error toolName)) <> Resolved (text_response text).
Proof.
  intros H. apply handleError_marks_error in H. discriminate H.
Qed.

(** Hence two answers written in the handlers are never given by the
    shipped server: [set_project] never answers "Failed to set project
    <uuid> as current", and the log tools never answer "No console logs
    found", "No network logs found" or "No action logs found". *)
Theorem unreachable_answers (config : WebvizioConfig) (args : Args) (w : World) :
  snd (run w (server config set_project args)) <>
    Resolved (text_response ("Failed to set project " ++ uuid args ++ " as current")) /\
  snd (run w (server config get_task_console_logs args)) <>
    Resolved (text_response "No console logs found") /\
  snd (run w (server config get_task_network_logs args)) <>
    Resolved (text_response "No network logs found") /\
  snd (run w (server config get_task_action_logs args)) <>
    Resolved (text_response "No action logs found").
Proof.
  split; [| repeat split].
  - unfold server, handler.
    destruct (String.eqb_spec (uuid args) "") as [E | NE].
    { rewrite (set_project_empty_uuid _ _ _ E). discriminate. }
    destruct (api w (tool_request config set_project args)) as [resp | error] eqn:Ha.
    + cbn [tool_request] in Ha. unfold set_project_handler. cbn [truthy].
      destruct (String.eqb_spec (uuid args) "") as [E | _]; [now elim NE |].
      cbn [negb new_WebvizioClient WebvizioMcpServer.setProject].
      unfold WebvizioClient.setProject, client_post. cbn [set_uuid].
      rewrite run_try_catch, run_bind, run_adapter_call, Ha.
      destruct (truthy (data resp)) eqn:T; cbn [negb run app snd].
      * rewrite T. cbn. discriminate.
      * discriminate.
    + change (set_project_handler (new_WebvizioClient config) args)
        with (server config set_project args).
      rewrite (failed_request_is_handled config set_project args w error
                 ltac:(discriminate) (fun _ => NE) Ha).
      cbn [snd]. apply handleError_is_not_text.
  - destruct (api w (tool_request config get_task_console_logs args))
      as [resp | error] eqn:Ha.
    + destruct (truthy (opt_chain (data resp) "prompt")) eqn:T.
      * cbn [tool_request] in Ha. unfold_tool.
        rewrite run_try_catch, run_bind, run_adapter_call, Ha, T.
        cbn [negb run app]. rewrite <- (opt_chain_truthy _ _ T), T. cbn [negb].
        unfold ToString. destruct (to_string (opt_chain (data resp) "prompt"));
          cbn; discriminate.
      * rewrite (empty_payload_is_thrown config get_task_console_logs args w resp
                   (or_introl eq_refl) Ha T). discriminate.
    + rewrite (failed_request_is_handled config get_task_console_logs args w error
                 ltac:(discriminate) ltac:(discriminate) Ha).
      cbn [snd]. apply handleError_is_not_text.
  - destruct (api w (tool_request config get_task_network_logs args))
      as [resp | error] eqn:Ha.
    + destruct (truthy (opt_chain (data resp) "prompt")) eqn:T.
      * cbn [tool_request] in Ha. unfold_tool.
        rewrite run_try_catch, run_bind, run_adapter_call, Ha, T.
        cbn [negb run app]. rewrite <- (opt_chain_truthy _ _ T), T. cbn [negb].
        unfold ToString. destruct (to_string (opt_chain (data resp) "prompt"));
          cbn; discriminate.
      * rewrite (empty_payload_is_thrown config get_task_network_logs args w resp
                   (or_intror (or_introl eq_refl)) Ha T). discriminate.
    + rewrite (failed_request_is_handled config get_task_network_logs args w error
                 ltac:(discriminate) ltac:(discriminate) Ha).
      cbn [snd]. apply handleError_is_not_text.
  - destruct (api w (tool_request config get_task_action_logs args))
      as [resp | error] eqn:Ha.
    + destruct (truthy (opt_chain (data resp) "prompt")) eqn:T.
      * cbn [tool_request] in Ha. unfold_tool.
        rewrite run_try_catch, run_bind, run_adapter_call, Ha, T.
        cbn [negb run app]. rewrite <- (opt_chain_truthy _ _ T), T. cbn [negb].
        unfold ToString. destruct (to_string (opt_chain (data resp) "prompt"));
          cbn; discriminate.
      * rewrite (empty_payload_is_thrown config get_task_action_logs args w resp
                   (or_intror (or_intror (or_introl eq_refl))) Ha T). discriminate.
    + rewrite (failed_request_is_handled config get_task_action_logs args w error
                 ltac:(discriminate) ltac:(discriminate) Ha).
      cbn [snd]. apply handleError_is_not_text.
Qed.

(** *** When the shipped [get_tasks] gives the hint *)

(** The shipped [get_tasks] answers with the project-selection hint in two
    cases only: the request succeeds with the body [true], or it fails
    with details that carry the message "Project not found".  A
    successful body [false], [null], [0] or [""] is an error instead. *)
Theorem shipped_get_tasks_hint (config : WebvizioConfig) (args : Args) (w : World) :
  (run w (server config get_tasks args) =
   ([tool_request config get_tasks args],
    Resolved (text_response no_project_selected)) <->
   (exists resp, api w (tool_request config get_tasks args) = Answered resp /\
                 data resp = JBool true) \/
   (exists error, api w (tool_request config get_tasks args) = Failed error /\
                  carries_project_not_found
                    (get_prop (handleApiError error) "details") = true)) /\
  (forall resp,
     api w (tool_request config get_tasks args) = Answered resp ->
     truthy (data resp) = false ->
     run w (server config get_tasks args) =
     ([tool_request config get_tasks args],
      Resolved (error_response "Error: Failed to fetch tasks"))).
Proof.
  assert (R : run w (server config get_tasks args) =
              match run w (WebvizioClient.getTasks config) with
              | (t, Resolved a) =>
                  let (t', s) := run w
                    (if negb (truthy a) || typeof_boolean a
                     then Ret (text_response no_project_selected)
                     else len <- member a "length" ;; n <- ToString len ;;
                          Ret (text_response
                                 ("Found " ++ n ++ " tasks:" ++ nl ++ nl ++
                                  JSON_stringify a))) in
                  match s with
                  | Resolved r => ((t ++ t')%list, Resolved r)
                  | Rejected e =>
                      let (t'', s') := run w (handleError e "get_tasks") in
                      (((t ++ t') ++ t'')%list, s')
                  end
              | (t, Rejected e) =>
                  let (t', s) := run w (handleError e "get_tasks") in
                  ((t ++ t')%list, s)
              end).
  { unfold server, handler, get_tasks_handler.
    cbn [new_WebvizioClient WebvizioMcpServer.getTasks].
    rewrite run_try_catch, run_bind.
    destruct (run w (WebvizioClient.getTasks config)) as [t [a | e]]; [| reflexivity].
    destruct (run w _) as [t' [r | e]]; reflexivity. }
  cbn [tool_request]. rewrite R, run_getTasks. clear R. split.
  - destruct (api w _) as [resp | error] eqn:Ha.
    + destruct (truthy (data resp)) eqn:T.
      * destruct (data resp) as [| | b | n | str | items | props] eqn:D;
          try discriminate T.
        -- cbn in T. subst b. cbn. split; [| reflexivity].
           intros _. left. now exists resp.
        -- cbn [negb orb typeof_boolean]. rewrite T. cbn [negb member bind].
           unfold ToString. destruct (to_string _); cbn.
           ++ split; [discriminate |].
              intros [(resp' & [= <-] & D') | (error & E & _)]; [| discriminate E].
              rewrite D in D'. discriminate D'.
           ++ split; [discriminate |].
              intros [(resp' & [= <-] & D') | (error & E & _)]; [| discriminate E].
              rewrite D in D'. discriminate D'.
        -- cbn [negb orb typeof_boolean]. rewrite T. cbn [negb member bind].
           unfold ToString. destruct (to_string _); cbn.
           ++ split; [discriminate |].
              intros [(resp' & [= <-] & D') | (error & E & _)]; [| discriminate E].
              rewrite D in D'. discriminate D'.
           ++ split; [discriminate |].
              intros [(resp' & [= <-] & D') | (error & E & _)]; [| discriminate E].
              rewrite D in D'. discriminate D'.
        -- cbn. split; [discriminate |].
           intros [(resp' & [= <-] & D') | (error & E & _)]; [| discriminate E].
           rewrite D in D'. discriminate D'.
        -- cbn [negb orb typeof_boolean truthy member bind].
           unfold ToString. destruct (to_string _); cbn.
           ++ split; [discriminate |].
              intros [(resp' & [= <-] & D') | (error & E & _)]; [| discriminate E].
              rewrite D in D'. discriminate D'.
           ++ split; [discriminate |].
              intros [(resp' & [= <-] & D') | (error & E & _)]; [| discriminate E].
              rewrite D in D'. discriminate D'.
      * cbn. split; [discriminate |].
        intros [(resp' & [= <-] & D') | (error & E & _)]; [| discriminate E].
        rewrite D' in T. discriminate T.
    + destruct (carries_project_not_found _) eqn:P.
      * cbn. split; [| reflexivity]. intros _. right. now exists error.
      * pose proof (handleError_no_request w (ThrownValue (handleApiError error))
                      "get_tasks") as N.
        pose proof (handleError_is_not_text w (ThrownValue (handleApiError error))
                      "get_tasks" no_project_selected) as NT.
        destruct (run w (handleError _ _)) as [t' s']. cbn [fst snd] in *. subst t'.
        split.
        -- intros [= E]. now elim NT.
        -- intros [(resp' & E & _) | (error' & [= <-] & P')]; [discriminate E |].
           rewrite P in P'. discriminate P'.
  - intros resp Ha T. rewrite Ha, T. reflexivity.
Qed.

Lemma shipped_get_tasks_hint_witness :
  run (answering (http_ok (JBool false))) (server config0 get_tasks {| uuid := "" |}) =
  ([tool_request config0 get_tasks {| uuid := "" |}],
   Resolved (error_response "Error: Failed to fetch tasks")).
Proof.
  exact (proj2 (shipped_get_tasks_hint config0 {| uuid := "" |}
                  (answering (http_ok (JBool false))))
           {| status := 200; statusText := "OK"; data := JBool false |}
           eq_refl eq_refl).
Defined.

End Further.

(* ===================================================================== *)
(** ** The configuration and the start of the process *)
(* ===================================================================== *)

Module StartupFacts.
Import Startup.

(** What a served tool is given.  When [main] gets to serve, its
    configuration holds the non-empty API key of the environment, and each
    axios call that a tool makes under it either goes to the fixed base
    URL with that key as bearer token, or is the download of the
    screenshot, configured with no header and no base URL. *)
Theorem env_key_is_the_bearer (env : Env) (boot : WebvizioConfig -> option Thrown)
        (config : WebvizioConfig) (t : ToolName) (args : Args) (w : World)
        (r : HttpRequest) :
  main env boot = Ret (Serving config) ->
  In r (fst (run w (server config t args))) ->
  env "WEBVIZIO_API_KEY" = Some (apiKey config) /\
  apiKey config <> "" /\
  ((req_baseURL r = Some "https://app.webvizio.com/api/mcp/v1/" /\
    req_headers r = [("Authorization", "Bearer " ++ apiKey config);
                     ("Content-Type", "application/json");
                     ("Accept", "application/json")]) \/
   (t = get_task_screenshot /\ req_baseURL r = None /\ req_headers r = [])).
Proof.
  intros M I.
  assert (C : env "WEBVIZIO_API_KEY" = Some (apiKey config) /\ apiKey config <> "" /\
              baseUrl config = "https://app.webvizio.com/api/mcp/v1/").
  { unfold main, getConfig in M.
    destruct (env "WEBVIZIO_API_KEY") as [key |]; [| discriminate M].
    cbn [truthy] in M.
    destruct (String.eqb_spec key "") as [E | NE]; cbn [negb bind try_catch] in M;
      [discriminate M |].
    destruct (boot _) as [[v | e] |]; cbn [try_catch] in M; try discriminate M.
    injection M as <-. now repeat split. }
  destruct C as (K & NE & B). split; [exact K | split; [exact NE |]].
  assert (First : req_baseURL (tool_request config t args) =
                    Some "https://app.webvizio.com/api/mcp/v1/" /\
                  req_headers (tool_request config t args) =
                    [("Authorization", "Bearer " ++ apiKey config);
                     ("Content-Type", "application/json");
                     ("Accept", "application/json")]).
  { rewrite <- B. destruct t; split; reflexivity. }
  destruct (Further.calls_of_a_tool config t args w)
    as [(E & _) | [(E & _) | (T & meta & _ & _ & E)]]; rewrite E in I.
  - destruct I.
  - destruct I as [<- | []]. left. exact First.
  - destruct I as [<- | [<- | []]]; [left; exact First | right; now repeat split].
Qed.

Lemma env_key_is_the_bearer_witness :
  req_headers (tool_request config0 close_task {| uuid := "t-1" |}) =
    [("Authorization", "Bearer secret");
     ("Content-Type", "application/json");
     ("Accept", "application/json")] /\
  req_baseURL (tool_request config0 close_task {| uuid := "t-1" |}) =
    Some "https://app.webvizio.com/api/mcp/v1/".
Proof.
  destruct (env_key_is_the_bearer
              (fun name => if String.eqb name "WEBVIZIO_API_KEY"
                           then Some "secret" else None)
              (fun _ => None) config0 close_task {| uuid := "t-1" |}
              (answering (http_ok (JObj [("success", JBool true)])))
              (tool_request config0 close_task {| uuid := "t-1" |})
              eq_refl (or_introl eq_refl))
    as (_ & _ & [(B & H) | (T & _)]); [| discriminate T].
  split; [exact H | exact B].
Defined.

(** Without a usable API key [main] builds no server: it prints the
    configuration help and exits with code 1.  With a key it serves with
    the configuration of [getConfig], unless construction or connection
    throws: then it exits with code 1 too, and prints the help only for an
    [Error] whose message names the key. *)
Theorem main_outcome (env : Env) (boot : WebvizioConfig -> option Thrown) :
  ((env "WEBVIZIO_API_KEY" = None \/ env "WEBVIZIO_API_KEY" = Some "") ->
   main env boot = Ret (Exited 1 true)) /\
  (forall key : string,
     env "WEBVIZIO_API_KEY" = Some key -> key <> "" ->
     let config := {| apiKey := key;
                      baseUrl := "https://app.webvizio.com/api/mcp/v1/" |} in
     main env boot =
     Ret (match boot config with
          | None => Serving config
          | Some (ThrownError e) =>
              Exited 1 (includes (error_message e) "WEBVIZIO_API_KEY")
          | Some (ThrownValue _) => Exited 1 false
          end)).
Proof.
  unfold main, getConfig. split.
  - intros [E | E]; rewrite E; reflexivity.
  - intros key E NE. rewrite E. cbn [truthy].
    destruct (String.eqb_spec key "") as [K | _]; [now elim NE |].
    cbn [negb bind]. destruct (boot _) as [[v | e] |]; reflexivity.
Qed.

Lemma main_outcome_witness :
  main (fun name => if String.eqb name "WEBVIZIO_API_KEY" then Some "" else None)
       (fun _ => None) = Ret (Exited 1 true) /\
  main (fun name => if String.eqb name "WEBVIZIO_API_KEY" then Some "secret" else None)
       (fun _ => Some (new_Error "EPIPE")) = Ret (Exited 1 false).
Proof.
  split.
  - exact (proj1 (main_outcome _ _) (or_intror eq_refl)).
  - exact (proj2 (main_outcome _ (fun _ => Some (new_Error "EPIPE")))
             "secret" eq_refl ltac:(discriminate)).
Defined.

End StartupFacts.

(* ===================================================================== *)
(** ** Concrete runs *)
(* ===================================================================== *)

Module Examples.
Import WebvizioClient.

Example stringify_nested :
  JSON_stringify (JObj [("uuid", JStr "p-1"); ("tags", JArr [JStr "a"; JNum 2]);
                        ("empty", JArr []); ("skipped", JUndefined)]) =
  "{" ++ nl ++
  "  " ++ dquote ++ "uuid" ++ dquote ++ ": " ++ dquote ++ "p-1" ++ dquote ++ "," ++ nl ++
  "  " ++ dquote ++ "tags" ++ dquote ++ ": [" ++ nl ++
  "    " ++ dquote ++ "a" ++ dquote ++ "," ++ nl ++
  "    2" ++ nl ++
  "  ]," ++ nl ++
  "  " ++ dquote ++ "empty" ++ dquote ++ ": []" ++ nl ++
  "}".
Proof. reflexivity. Qed.

Example stringify_escapes :
  JSON_stringify (JStr ("a\b" ++ nl ++ dquote)) =
  dquote ++ "a\\b\n\" ++ dquote ++ dquote.
Proof. reflexivity. Qed.

Example to_string_array :
  to_string (JArr [JNum 1; JNull; JArr [JStr "x"; JBool true]; JObj []]) =
  Some "1,,x,true,[object Object]".
Proof. reflexivity. Qed.

Example to_string_shadowed :
  to_string (JObj [("toString", JNum 1)]) = None.
Proof. reflexivity. Qed.

(** Numbers that are not safe integers, as [String] prints them. *)
Example numbers_print :
  Number_toString (decimal 1 21) = "1e+21" /\
  Number_toString (decimal 1 20) = "100000000000000000000" /\
  Number_toString 1152921504606846976 = "1152921504606847000" /\
  Number_toString 9007199254740993 = "9007199254740992" /\
  Number_toString (decimal 1 23) = "1e+23" /\
  Number_toString (decimal 15 (-1)) = "1.5" /\
  Number_toString (decimal (-25) (-2)) = "-0.25" /\
  Number_toString (decimal 3 (-1)) = "0.3" /\
  Number_toString (decimal 123456 (-3)) = "123.456" /\
  Number_toString (decimal 1 (-6)) = "0.000001" /\
  Number_toString (decimal 1 (-7)) = "1e-7" /\
  Number_toString (decimal 5 (-324)) = "5e-324" /\
  Number_toString (decimal 1 (-400)) = "0" /\
  Number_toString (decimal 17976931348623157 292) = "1.7976931348623157e+308" /\
  Number_toString (decimal 18 307) = "Infinity" /\
  Number_toString (decimal (-1) 400) = "-Infinity".
Proof. vm_compute. repeat split. Qed.

(** On safe integers the digits found by the general rule are the
    integer's own. *)
Example safe_integers_print_their_digits :
  forallb (fun n => String.eqb (general_toString (of_Z n)) (show_Z n))
          [0; 1; -1; 7; 10; 401; 30000; 4294967295; 123456789012345;
           1000000000000000; 9007199254740991; -9007199254740992]%Z = true.
Proof. vm_compute. reflexivity. Qed.

Example numbers_truthiness :
  truthy (JNum 0) = false /\ truthy (JNum (decimal 1 (-400))) = false /\
  truthy (JNum (decimal 1 (-1))) = true /\ truthy (JNum (-3)) = true.
Proof. vm_compute. repeat split. Qed.

Example stringify_numbers :
  JSON_stringify (JArr [JNum (decimal 25 (-1)); JNum (decimal 1 400); JNum (decimal 1 21)]) =
  "[" ++ nl ++ "  2.5," ++ nl ++ "  null," ++ nl ++ "  1e+21" ++ nl ++ "]".
Proof. vm_compute. reflexivity. Qed.

(** The test vectors of RFC 4648. *)
Example base64_vectors :
  toString_base64 [x66] = "Zg==" /\
  toString_base64 [x66; x6f] = "Zm8=" /\
  toString_base64 [x66; x6f; x6f] = "Zm9v" /\
  toString_base64 [x66; x6f; x6f; x62] = "Zm9vYg==" /\
  toString_base64 [x66; x6f; x6f; x62; x61] = "Zm9vYmE=" /\
  toString_base64 [x66; x6f; x6f; x62; x61; x72] = "Zm9vYmFy".
Proof. repeat split. Qed.

Example base64_rejects_stray_padding :
  Base64.decode "Zg==Zg==" = None /\ Base64.decode "Zm9" = None.
Proof. split; reflexivity. Qed.

Example reduce_404 :
  handleApiError {| response := Some {| status := 404; statusText := "Not Found";
                                        data := JObj [("message", JStr "No such task")] |};
                    request := true; message := "Request failed with status code 404";
                    code := Some "ERR_BAD_REQUEST" |} =
  McpError 404 (JStr "Not Found: Resource not found")
    (JObj [("message", JStr "No such task")]).
Proof. reflexivity. Qed.

Example reduce_422_error_field :
  handleApiError {| response := Some {| status := 422; statusText := "Unprocessable Entity";
                                        data := JObj [("error", JStr "uuid is invalid")] |};
                    request := true; message := "Request failed with status code 422";
                    code := Some "ERR_BAD_REQUEST" |} =
  McpError 422 (JStr "uuid is invalid") (JObj [("error", JStr "uuid is invalid")]).
Proof. reflexivity. Qed.

Example reduce_502_html :
  handleApiError {| response := Some {| status := 502; statusText := "Bad Gateway";
                                        data := JStr "<html></html>" |};
                    request := true; message := "Request failed with status code 502";
                    code := Some "ERR_BAD_RESPONSE" |} =
  McpError 502 (JStr "HTTP 502: Bad Gateway") (JStr "<html></html>").
Proof. reflexivity. Qed.

Example reduce_timeout :
  handleApiError {| response := None; request := true;
                    message := "timeout of 30000ms exceeded";
                    code := Some "ECONNABORTED" |} =
  McpError 0 (JStr "Network Error: Unable to reach Webvizio API")
    (JObj [("originalError", JStr "timeout of 30000ms exceeded")]).
Proof. reflexivity. Qed.

Example reduce_setup_failure :
  handleApiError {| response := None; request := false;
                    message := "Invalid URL"; code := Some "ERR_INVALID_URL" |} =
  McpError (-1) (JStr "Request Error: Invalid URL")
    (JObj [("originalError", JStr "Invalid URL")]).
Proof. reflexivity. Qed.

Example get_projects_lists :
  run (answering (http_ok (JArr [JObj [("uuid", JStr "p-1"); ("name", JStr "Site")]])))
      (server config0 get_projects {| uuid := "" |}) =
  ([tool_request config0 get_projects {| uuid := "" |}],
   Resolved (text_response
     ("Found 1 projects:" ++ nl ++ nl ++
      "[" ++ nl ++ "  {" ++ nl ++
      "    " ++ dquote ++ "uuid" ++ dquote ++ ": " ++ dquote ++ "p-1" ++ dquote ++ "," ++ nl ++
      "    " ++ dquote ++ "name" ++ dquote ++ ": " ++ dquote ++ "Site" ++ dquote ++ nl ++
      "  }" ++ nl ++ "]"))).
Proof. reflexivity. Qed.

Example get_projects_null_body :
  run (answering (http_ok JNull)) (server config0 get_projects {| uuid := "" |}) =
  ([tool_request config0 get_projects {| uuid := "" |}],
   Resolved (error_response
     "Error: Cannot read properties of null (reading 'error')")).
Proof. reflexivity. Qed.

Example network_failure_is_rendered :
  run (answering unreachable) (server config0 get_task_prompt {| uuid := "t-1" |}) =
  ([tool_request config0 get_task_prompt {| uuid := "t-1" |}],
   Resolved (error_response
     ("Error 0: Network Error: Unable to reach Webvizio API" ++ nl ++
      "Details: {" ++ nl ++
      "  " ++ dquote ++ "originalError" ++ dquote ++ ": " ++ dquote ++
      "connect ECONNREFUSED" ++ dquote ++ nl ++ "}"))).
Proof. reflexivity. Qed.

(** A failed download of the image reaches the dispatcher as the
    [AxiosError] itself, which has a code and a message. *)
Example screenshot_download_fails :
  run {| api := fun _ => http_ok (JObj [("screenshot", JStr "https://cdn.example/s.png")]);
         fetch := fun _ => unreachable |}
      (server config0 get_task_screenshot {| uuid := "t-1" |}) =
  ([tool_request config0 get_task_screenshot {| uuid := "t-1" |};
    plain_request (JStr "https://cdn.example/s.png")],
   Resolved (error_response "Error ECONNREFUSED: connect ECONNREFUSED")).
Proof. reflexivity. Qed.

Example getConfig_refuses :
  Startup.getConfig (fun _ => None) =
    Throw (new_Error "WEBVIZIO_API_KEY environment variable is required") /\
  Startup.getConfig (fun _ => Some "") =
    Throw (new_Error "WEBVIZIO_API_KEY environment variable is required") /\
  Startup.getConfig (fun _ => Some "secret") = Ret config0.
Proof. repeat split. Qed.

(** The operation that no tool calls. *)
Example error_logs_operation :
  run (answering (http_ok (JObj [("prompt", JStr "ReferenceError: x")])))
      (getTaskErrorLogs config0 {| task_uuid := "t-1" |}) =
  ([instance_request config0 GET "/task/t-1/error-logs" None],
   Resolved (JStr "ReferenceError: x")) /\
  run (answering (http_ok (JObj [])))
      (getTaskErrorLogs config0 {| task_uuid := "t-1" |}) =
  ([instance_request config0 GET "/task/t-1/error-logs" None],
   Rejected (new_Error "Failed to get error logs prompt")).
Proof. split; reflexivity. Qed.

Example console_logs_present :
  run (answering (http_ok (JObj [("prompt", JStr "TypeError at app.js:3")])))
      (server config0 get_task_console_logs {| uuid := "t-1" |}) =
  ([tool_request config0 get_task_console_logs {| uuid := "t-1" |}],
   Resolved (text_response ("Task console logs:" ++ nl ++ nl ++ "TypeError at app.js:3"))).
Proof. reflexivity. Qed.

End Examples.
